(** * claude-pause-mcp: the decision dialog, its preference file and its history

    A shallow embedding of [history.py], [dialog.py] (the Tk window) and
    [dialog-web.py] (the local HTTP listener), followed by the properties of
    the exchange contract: the encoded result line, the preference file, the
    bounded history log and the exit status.

    Python strings are [string]; a character is a code point below 256.
    The two data files next to the scripts are fields of a [World] record that
    every operation threads through, together with the text printed so far. *)

From Stdlib Require Import ZArith Ascii String.
From stdpp Require Import base option list strings gmap.

Local Open Scope Z_scope.

(** ** Python primitives used by the three scripts *)

Module Py.

(** [str.isspace] on one character, for code points below 256: the ASCII
    white space 0x09-0x0D, 0x1C-0x1F and 0x20, then NEL and NBSP. *)
Definition isspace (c : ascii) : bool :=
  let n := nat_of_ascii c in
  ((9 <=? n)%nat && (n <=? 13)%nat)
  || ((28 <=? n)%nat && (n <=? 32)%nat)
  || (n =? 133)%nat || (n =? 160)%nat.

Fixpoint lstrip (s : string) : string :=
  match s with
  | EmptyString => EmptyString
  | String c s' => if isspace c then lstrip s' else s
  end.

Fixpoint str_rev (s : string) : string :=
  match s with
  | EmptyString => EmptyString
  | String c s' => str_rev s' +:+ String c EmptyString
  end.

Definition rstrip (s : string) : string := str_rev (lstrip (str_rev s)).

(** [s.strip()] *)
Definition strip (s : string) : string := rstrip (lstrip s).

(** [s[:n]] for a literal [n >= 0] *)
Fixpoint str_take (n : nat) (s : string) : string :=
  match n, s with
  | S n', String c s' => String c (str_take n' s')
  | _, _ => EmptyString
  end.

(** [l[:k]] for any integer [k]: a negative bound counts from the end. *)
Definition slice_to {A} (k : Z) (l : list A) : list A :=
  if k <? 0 then take (Z.to_nat (Z.of_nat (length l) + k)) l
  else take (Z.to_nat k) l.

(** Truth value of a string: empty is false. *)
Definition truthy (s : string) : bool :=
  match s with EmptyString => false | _ => true end.

(** [x in l] for a list of strings *)
Definition str_in (x : string) (l : list string) : bool :=
  bool_decide (x ∈ l).

(** [s.startswith(p)] *)
Definition startswith (s p : string) : bool := String.prefix p s.

(** Exceptions that the modelled code can meet. *)
Inductive exn : Type :=
| OSError            (* open/read/write of a file failed *)
| JSONDecodeError    (* json.loads on the argument failed *)
| IndexError         (* [l[0]] on an empty list *)
| UnboundLocalError. (* a local read before its assignment *)

(** Result of a statement block: a value, or a raised exception. *)
Inductive res (A : Type) : Type :=
| Ret (a : A)
| Raise (e : exn).
Global Arguments Ret {A} a.
Global Arguments Raise {A} e.

Definition bind {A B} (m : res A) (k : A → res B) : res B :=
  match m with Ret a => k a | Raise e => Raise e end.

(** [try: body / except: pass], the value falling back to [dflt]. *)
Definition try_except {A} (body : res A) (dflt : A) : A :=
  match body with Ret a => a | Raise _ => dflt end.

(** [l[0]] *)
Definition index0 {A} (l : list A) : res A :=
  match l with x :: _ => Ret x | [] => Raise IndexError end.

End Py.

Global Instance res_ret : MRet Py.res := @Py.Ret.
Global Instance res_bind : MBind Py.res := λ A B k m, Py.bind m k.

(** ** The files next to the scripts, the clock and standard output *)

(** A path is absent, present but failing on open or read (a directory, a
    permission or decoding error, invalid JSON), or holds a value. *)
Inductive file (A : Type) : Type :=
| Missing
| Unreadable
| Content (a : A).
Global Arguments Missing {A}.
Global Arguments Unreadable {A}.
Global Arguments Content {A} a.

(** One record of [.dialog_history.json]. *)
Record Entry : Type := mkEntry {
  timestamp : string;
  response : string;
  context : string;
  thinking_mode : string
}.

Global Instance Entry_eq_dec : EqDecision Entry.
Proof. solve_decision. Defined.

Record World : Type := mkWorld {
  pref_file : file string;          (* .thinking_mode_preference *)
  pref_writable : bool;             (* does open(pref_file, 'w') succeed *)
  history_file : file (list Entry); (* .dialog_history.json, parsed *)
  history_writable : bool;          (* does open(history_file, 'w') succeed *)
  clock : string;                   (* datetime.now().isoformat() *)
  stdout : list string              (* one element per print call *)
}.

Definition set_pref_file (f : file string) (w : World) : World :=
  mkWorld f (pref_writable w) (history_file w) (history_writable w)
          (clock w) (stdout w).

Definition set_history_file (f : file (list Entry)) (w : World) : World :=
  mkWorld (pref_file w) (pref_writable w) f (history_writable w)
          (clock w) (stdout w).

(** [print(s)] *)
Definition print (s : string) (w : World) : World :=
  mkWorld (pref_file w) (pref_writable w) (history_file w) (history_writable w)
          (clock w) (stdout w ++ [s]).

(** [os.path.exists(path)] *)
Definition exists_ {A} (f : file A) : bool :=
  match f with Missing => false | _ => true end.

(** [with open(path, 'r') as f: f.read()] (or [json.load(f)]) *)
Definition read_file {A} (f : file A) : Py.res A :=
  match f with Content a => Py.Ret a | _ => Py.Raise Py.OSError end.

(** [with open(pref_file, 'w') as f: f.write(mode)] *)
Definition write_pref (mode : string) (w : World) : Py.res World :=
  if pref_writable w then Py.Ret (set_pref_file (Content mode) w)
  else Py.Raise Py.OSError.

(** [with open(history_file, 'w') as f: json.dump(l, f, indent=2)] *)
Definition write_history (l : list Entry) (w : World) : Py.res World :=
  if history_writable w then Py.Ret (set_history_file (Content l) w)
  else Py.Raise Py.OSError.

(** ** history.py *)

Module DialogHistory.

(** The object: [self.max_items] and [self.history]. *)
Record t : Type := mk {
  max_items : Z;
  history : list Entry
}.

Definition load_history (w : World) : list Entry :=
  Py.try_except
    (if exists_ (history_file w) then read_file (history_file w)
     else Py.Ret [])
    [].

(** [DialogHistory(max_items)] *)
Definition init (max_items : Z) (w : World) : t :=
  mk max_items (load_history w).

Definition default_max_items : Z := 10.

Definition save_history (h : t) (w : World) : World :=
  Py.try_except (write_history (Py.slice_to (max_items h) (history h)) w) w.

(** The [context] field of a new entry. *)
Definition stored_context (context : string) : string :=
  if (100 <? String.length context)%nat
  then Py.str_take 100 context +:+ "..."
  else context.

Definition add_entry (response context thinking_mode : string)
    (h : t) (w : World) : t * World :=
  let entry := mkEntry (clock w) response (stored_context context)
                       thinking_mode in
  let h1 := mk (max_items h) (entry :: history h) in
  let h2 := mk (max_items h1) (Py.slice_to (max_items h1) (history h1)) in
  (h2, save_history h2 w).

Definition get_recent (count : Z) (h : t) : list Entry :=
  Py.slice_to count (history h).

Definition clear (h : t) (w : World) : t * World :=
  let h1 := mk (max_items h) [] in
  (h1, save_history h1 w).

End DialogHistory.

(** ** The request and the process outcome *)

(** The payload of the one argument, once [json.loads] and the three
    [data.get] calls have read it. *)
Record DecisionRequest : Type := mkRequest {
  decision_context : string;
  options : list string;
  default_action : string
}.

(** How far the process got: still blocked on the human (or on its own
    listener), or gone with an exit status. *)
Inductive status : Type :=
| Waiting
| Exited (code : Z).

Definition SEP : string := "|||".
Definition CANCELLED : string := "CANCELLED".

(** [f"{response}|||{mode}"] *)
Definition encode (response mode : string) : string :=
  response +:+ SEP +:+ mode.

(** The literal list of both loaders. *)
Definition known_modes : list string := ["normal"; "deep"; "ultra"; "quick"].

(** ** dialog.py *)

Module Gui.
Section WithJson.

(** [json.loads] with the [data.get] defaults applied; [None] when the
    argument is not a JSON object of that shape and the call raises. *)
Variable json_loads : string → option DecisionRequest.

(** Lines 228-239: the saved preference, read while the window is built. *)
Definition load_saved_mode (w : World) : string :=
  Py.try_except
    (if exists_ (pref_file w) then
       text ← read_file (pref_file w);
       let saved_mode := Py.strip text in
       mret (if Py.str_in saved_mode known_modes then saved_mode
             else "normal")
     else mret "normal")
    "normal".

(** The [value] column of [modes], in the order of the radio buttons. *)
Definition modes : list string := ["quick"; "normal"; "deep"; "ultra"].

(** The variables that the callbacks close over. *)
Record state : Type := mkState {
  ctx : string;                   (* context *)
  opts : list string;             (* options *)
  history : DialogHistory.t;      (* history *)
  recent_history : list Entry;    (* history.get_recent(5) *)
  var_thinking_mode : string;     (* thinking_mode (StringVar) *)
  var_result : string;            (* result (StringVar) *)
  running : bool                  (* the main loop has not been quit *)
}.

Definition set_thinking_mode (m : string) (st : state) : state :=
  mkState (ctx st) (opts st) (history st) (recent_history st) m
          (var_result st) (running st).

Definition set_result (r : string) (st : state) : state :=
  mkState (ctx st) (opts st) (history st) (recent_history st)
          (var_thinking_mode st) r (running st).

Definition set_history (h : DialogHistory.t) (st : state) : state :=
  mkState (ctx st) (opts st) h (recent_history st)
          (var_thinking_mode st) (var_result st) (running st).

(** [root.quit()] *)
Definition quit (st : state) : state :=
  mkState (ctx st) (opts st) (history st) (recent_history st)
          (var_thinking_mode st) (var_result st) false.

(** The write trace of [thinking_mode]; the label and the frame borders
    it restyles are not part of the state. *)
Definition update_mode_indicator (st : state) (w : World) : World :=
  let mode := var_thinking_mode st in
  Py.try_except (write_pref mode w) w.

(** [show_dialog] up to [root.mainloop()], for a parsed request. *)
Definition build (data : DecisionRequest) (w : World) : state * World :=
  let history := DialogHistory.init DialogHistory.default_max_items w in
  let default_mode := load_saved_mode w in
  let st := mkState (decision_context data) (options data) history
                    (DialogHistory.get_recent 5 history)
                    default_mode (default_action data) true in
  (st, update_mode_indicator st w).

(** What the user can do to the window through its own widgets and keys.
    Closing it through the window manager is not among them: the script
    installs no handler for that, see [gui_script_window_closed]. *)
Inductive event : Type :=
| SelectMode (i : nat)      (* radio button [i] of [modes], or its key *)
| EditResponse (s : string) (* the entry field now reads [s] *)
| PickOption (i : nat)      (* radio button [i] of the options *)
| PickHistory (i : nat)     (* item [i] of the Recent menu *)
| Submit                    (* Submit button or Return *)
| Cancel.                   (* Cancel button or Escape *)

(** Lines 400-416; [save_position] only writes the geometry file. *)
Definition submit (st : state) (w : World) : state * World :=
  let mode := var_thinking_mode st in
  let w1 := Py.try_except (write_pref mode w) w in
  let response := var_result st in
  let '(h, w2) :=
    if Py.truthy response && negb (bool_decide (response = CANCELLED))
    then DialogHistory.add_entry response (ctx st) mode (history st) w1
    else (history st, w1) in
  let output := encode response mode in
  (quit (set_history h st), print output w2).

(** Lines 418-421. *)
Definition cancel (st : state) (w : World) : state * World :=
  (quit st, print CANCELLED w).

(** One event delivered by the main loop; nothing is delivered once the
    loop has been quit. *)
Definition step (ev : event) (sw : state * World) : state * World :=
  let '(st, w) := sw in
  if running st then
    match ev with
    | SelectMode i =>
        match modes !! i with
        | Some m => let st' := set_thinking_mode m st in
                    (st', update_mode_indicator st' w)
        | None => (st, w)
        end
    | EditResponse s => (set_result s st, w)
    | PickOption i =>
        match opts st !! i with
        | Some v => (set_result v st, w)
        | None => (st, w)
        end
    | PickHistory i =>
        match recent_history st !! i with
        | Some item => (set_result (response item) st, w)
        | None => (st, w)
        end
    | Submit => submit st w
    | Cancel => cancel st w
    end
  else (st, w).

(** [root.mainloop()] over the events of one session. *)
Definition mainloop (events : list event) (sw : state * World)
    : state * World :=
  foldl (λ acc ev, step ev acc) sw events.

(** [show_dialog(json_input)], with the session's events fed to the main
    loop; the window is still open when [running] holds at the end. *)
Definition show_dialog (json_input : string) (events : list event)
    (w : World) : Py.res (state * World) :=
  match json_loads json_input with
  | None => Py.Raise Py.JSONDecodeError
  | Some data => mret (mainloop events (build data w))
  end.

(** The [__main__] block; an uncaught exception ends the process with
    status 1 and a traceback on standard error. *)
Definition main (argv : list string) (events : list event) (w : World)
    : World * status :=
  match argv with
  | _ :: json_input :: _ =>
      match show_dialog json_input events w with
      | Py.Raise _ => (w, Exited 1)
      | Py.Ret (st, w') => (w', if running st then Waiting else Exited 0)
      end
  | _ => (print "ERROR: No input provided" w, Exited 1)
  end.

End WithJson.
End Gui.

(** ** dialog-web.py *)

Module Web.
Section WithJson.

Variable json_loads : string → option DecisionRequest.

(** A GET request: the request path as received, and the dictionary that
    [parse_qs(urlparse(path).query)] makes of it (urllib is not part of the
    repository). *)
Record request : Type := mkReq {
  path : string;
  query : gmap string (list string)
}.

(** The module-level [result]; [server] is only ever read by the handler. *)
Record globals : Type := mkGlobals {
  result : option string
}.

(** What one call of the handler leaves behind. [do_GET] has no
    [global result] statement, so its assignments to [result] bind a local
    of the call: [local_result]. *)
Record handled : Type := mkHandled {
  h_world : World;
  h_globals : globals;
  local_result : option string;
  shutdown_called : bool
}.

(** Lines 29-38: the saved preference, read while the page is built. *)
Definition load_saved_mode (w : World) : string :=
  Py.try_except
    (if exists_ (pref_file w) then
       text ← read_file (pref_file w);
       let saved := Py.strip text in
       mret (if Py.str_in saved known_modes then saved else "normal")
     else mret "normal")
    "normal".

(** [query.get(key, [dflt])[0]] *)
Definition query_get0 (q : gmap string (list string)) (key dflt : string)
    : Py.res string :=
  Py.index0 (default [dflt] (q !! key)).

Definition do_GET (argv : list string) (req : request) (g : globals)
    (w : World) : Py.res handled :=
  if bool_decide (path req = "/") then
    (* the page: the f-string of line 40 reads the locals [options_html]
       and [default_html], which are assigned only at lines 257 and 264 *)
    match json_loads (default "" (argv !! 1%nat)) with
    | None => Py.Raise Py.JSONDecodeError
    | Some data =>
        let thinking_mode := load_saved_mode w in
        Py.Raise Py.UnboundLocalError
    end
  else if Py.startswith (path req) "/submit" then
    response ← query_get0 (query req) "response" "";
    mode ← query_get0 (query req) "mode" "normal";
    let result := encode response mode in
    let w' := Py.try_except (write_pref mode w) w in
    mret (mkHandled w' g (Some result) true)
  else if bool_decide (path req = "/cancel") then
    let result := CANCELLED in
    mret (mkHandled w g (Some result) true)
  else
    mret (mkHandled w g None false).

(** [server.serve_forever()] over the requests that arrive: a handler that
    raises is reported by the server, which keeps serving; the loop is
    asked to stop by the first handler that calls [server.shutdown()].
    The flag tells whether that happened. *)
Fixpoint serve_forever (argv : list string) (reqs : list request)
    (g : globals) (w : World) : globals * World * bool :=
  match reqs with
  | [] => (g, w, false)
  | req :: rest =>
      match do_GET argv req g w with
      | Py.Raise _ => serve_forever argv rest g w
      | Py.Ret h =>
          if shutdown_called h then (h_globals h, h_world h, true)
          else serve_forever argv rest (h_globals h) (h_world h)
      end
  end.

(** [show_web_dialog]: [None] while [server_thread.join()] has not
    returned. The handler calls [server.shutdown()] on the serving thread
    itself; [shutdown_returns] says whether that call, and with it the
    join, returns. What socketserver does there is
    [shutdown_returns_in_handler], and the script as it runs is
    [web_script]. *)
Definition show_web_dialog (shutdown_returns : bool) (argv : list string)
    (reqs : list request) (g : globals) (w : World)
    : World * option (option string) :=
  let '(g', w', stopped) := serve_forever argv reqs g w in
  if stopped && shutdown_returns then (w', Some (result g'))
  else (w', None).

(** [if result:] on a value that is [None] or a string *)
Definition truthy_result (r : option string) : bool :=
  match r with Some s => Py.truthy s | None => false end.

(** The [__main__] block, from the module-level [result = None]. *)
Definition main (shutdown_returns : bool) (argv : list string)
    (reqs : list request) (w : World) : World * status :=
  if (1 <? Z.of_nat (length argv)) then
    match show_web_dialog shutdown_returns argv reqs (mkGlobals None) w with
    | (w', None) => (w', Waiting)
    | (w', Some result) =>
        (if truthy_result result then print (default "" result) w' else w',
         Exited 0)
    end
  else (print "ERROR: No input provided" w, Exited 1).

End WithJson.
End Web.

(** ** Sessions of several submissions *)

(** One call of [add_entry], with the clock reading it sees. *)
Record submission : Type := mkSub {
  s_time : string;
  s_response : string;
  s_context : string;
  s_mode : string
}.

Definition set_clock (t : string) (w : World) : World :=
  mkWorld (pref_file w) (pref_writable w) (history_file w)
          (history_writable w) t (stdout w).

(** The record that [add_entry] builds for a submission. *)
Definition entry_of (s : submission) : Entry :=
  mkEntry (s_time s) (s_response s)
          (DialogHistory.stored_context (s_context s)) (s_mode s).

(** [add_entry] called once per submission, oldest first, on one object. *)
Definition add_all (subs : list submission) (hw : DialogHistory.t * World)
    : DialogHistory.t * World :=
  foldl (λ acc s,
           DialogHistory.add_entry (s_response s) (s_context s) (s_mode s)
                                   (fst acc) (set_clock (s_time s) (snd acc)))
        hw subs.

(** One submission per process: each builds its own object from the
    file, appends, and saves. *)
Definition add_each (cap : Z) (subs : list submission) (w : World) : World :=
  foldl (λ w s,
           let w' := set_clock (s_time s) w in
           snd (DialogHistory.add_entry (s_response s) (s_context s)
                  (s_mode s) (DialogHistory.init cap w') w'))
        w subs.

(** An event that leaves the window open. *)
Definition idle (ev : Gui.event) : bool :=
  match ev with
  | Gui.Submit | Gui.Cancel => false
  | _ => true
  end.

(** What no operation touches: the two flags and the clock. *)
Definition same_env (w w' : World) : Prop :=
  pref_writable w' = pref_writable w
  ∧ history_writable w' = history_writable w
  ∧ clock w' = clock w.

(** The history file and the output are as they were. *)
Definition same_stores (w w' : World) : Prop :=
  history_file w' = history_file w ∧ stdout w' = stdout w.

(** An event that changes neither the mode nor the window's fate. *)
Definition keeps_mode (ev : Gui.event) : bool :=
  match ev with
  | Gui.EditResponse _ | Gui.PickOption _ | Gui.PickHistory _ => true
  | _ => false
  end.

(** The preference file holds the mode that the window shows. *)
Definition pref_in_sync (sw : Gui.state * World) : Prop :=
  pref_file (snd sw) = Content (Gui.var_thinking_mode (fst sw)).

(** What a window that started with output [out0] may have printed: nothing
    while it is open; once closed, [CANCELLED] or one encoded line. *)
Definition output_shape (out0 : list string) (sw : Gui.state * World) : Prop :=
  Gui.var_thinking_mode (fst sw) ∈ Gui.modes
  ∧ ((Gui.running (fst sw) = true ∧ stdout (snd sw) = out0)
     ∨ (Gui.running (fst sw) = false ∧ stdout (snd sw) = out0 ++ [CANCELLED])
     ∨ (Gui.running (fst sw) = false
        ∧ ∃ r m, m ∈ Gui.modes ∧ stdout (snd sw) = out0 ++ [encode r m])).

(** A record was added exactly when the response is neither empty nor the
    sentinel: what a submit from world [w] to world [w'] with response [r]
    is to satisfy. *)
Definition records_iff_response (r : string) (w w' : World) : Prop :=
  history_file w' ≠ history_file w ↔ (r ≠ "" ∧ r ≠ CANCELLED).


(** ** Sample data *)

Definition world0 : World :=
  mkWorld Missing true Missing true "2025-06-01T12:00:00" [].

Definition request0 : DecisionRequest :=
  mkRequest "Which fix should be applied?" ["A"; "B"] "proceed".

Definition json0 : string → option DecisionRequest := λ _, Some request0.

Definition argv0 : list string := ["dialog.py"; "{}"].

Definition req_submit0 : Web.request :=
  Web.mkReq "/submit?response=fix%20the%20bug&mode=deep"
            {[ "response" := ["fix the bug"]; "mode" := ["deep"] ]}.

Definition req_cancel0 : Web.request := Web.mkReq "/cancel" ∅.

Definition req_bogus : Web.request :=
  Web.mkReq "/submit?response=x&mode=bogus"
            {[ "response" := ["x"]; "mode" := ["bogus"] ]}.

(** A context of 120 characters. *)
Definition long_context : string :=
  "0123456789012345678901234567890123456789012345678901234567890123456789012345678901234567890123456789ABCDEFGHIJKLMNOPQRST".

(** A state of the window as [build] leaves it for [request0], showing
    mode [m]. *)
Definition state_showing (m : string) : Gui.state :=
  Gui.mkState (decision_context request0) (options request0)
              (DialogHistory.mk 10 []) [] m (default_action request0) true.

(** ** The rest of the window: indicator, Recent menu *)

Module GuiView.

Definition bg_color : string := "#1e1e2e".
Definition accent3_color : string := "#a6e3a1".

(** The dictionary of [update_mode_indicator]. *)
Definition mode_text_table : gmap string string :=
  {[ "quick" := "Quick Mode"; "normal" := "Normal Mode";
     "deep" := "Deep Mode"; "ultra" := "Ultra Mode" ]}.

(** [{...}.get(mode, mode)] *)
Definition mode_text (mode : string) : string :=
  default mode (mode_text_table !! mode).

(** The text that [update_mode_indicator] gives [current_mode_label]. *)
Definition indicator_text (mode : string) : string :=
  "[" +:+ mode_text mode +:+ "]".

(** The border colour that [update_mode_indicator] gives each frame of
    [radio_frames], in the order the frames were created. *)
Definition frame_borders (mode : string) : list (string * string) :=
  (λ value, (value, if bool_decide (value = mode) then accent3_color
                    else bg_color)) <$> Gui.modes.

(** Lines 353-357: the label of one item of the Recent menu. *)
Definition menu_label (item : Entry) : string :=
  if (40 <? String.length (response item))%nat
  then Py.str_take 40 (response item) +:+ "..."
  else response item.

(** The Recent menu: each label with the text its command puts in the
    response field. *)
Definition history_menu (st : Gui.state) : list (string * string) :=
  (λ item, (menu_label item, response item)) <$> Gui.recent_history st.

End GuiView.

(** An event that leaves the response field alone and the window open. *)
Definition keeps_response (ev : Gui.event) : bool :=
  match ev with
  | Gui.SelectMode _ => true
  | _ => false
  end.

(** A text made of white space only. *)
Definition all_space (s : string) : bool :=
  forallb Py.isspace (list_ascii_of_string s).

(** A request that one of the two closing branches of [do_GET] takes. *)
Definition closing (req : Web.request) : bool :=
  negb (bool_decide (Web.path req = "/"))
  && (Py.startswith (Web.path req) "/submit"
      || bool_decide (Web.path req = "/cancel")).

(** ** The two places where the scripts lean on their libraries *)

(** [server.shutdown()] asks the loop of [serve_forever] to stop and then
    waits until the loop has stopped. [do_GET] calls it on the thread that
    runs that loop (a plain [TCPServer] handles each request on the serving
    thread), so the loop cannot go on to stop while the call waits: in the
    script the call does not return. *)
Definition shutdown_returns_in_handler : bool := false.

(** dialog-web.py as it runs. *)
Definition web_script (json_loads : string → option DecisionRequest)
    (argv : list string) (reqs : list Web.request) (w : World)
    : World * status :=
  Web.main json_loads shutdown_returns_in_handler argv reqs w.

(** dialog.py when, after [events], the user closes the window through the
    window manager. No [WM_DELETE_WINDOW] handler is installed: Tk destroys
    the root window and [root.mainloop()] returns without any callback of
    the script, then [root.destroy()] of line 475 raises on the destroyed
    application and the process ends with status 1. A window that Submit or
    Cancel has closed is not there to be closed again. *)
Definition gui_script_window_closed
    (json_loads : string → option DecisionRequest)
    (argv : list string) (events : list Gui.event) (w : World)
    : World * status :=
  match Gui.main json_loads argv events w with
  | (w', Waiting) => (w', Exited 1)
  | out => out
  end.

(** * Properties *)

(** ** Slices and strings *)

Lemma slice_to_nonneg {A} (k : Z) (l : list A) :
  0 ≤ k → Py.slice_to k l = take (Z.to_nat k) l.
Proof.
  intros Hk. unfold Py.slice_to.
  destruct (Z.ltb_spec k 0) as [Hlt | _]; [lia | reflexivity].
Qed.

Lemma slice_to_length {A} (k : Z) (l : list A) :
  0 ≤ k → length (Py.slice_to k l) = Nat.min (Z.to_nat k) (length l).
Proof. intros Hk. rewrite slice_to_nonneg by done. apply length_take. Qed.

Lemma take_app_take {A} (n : nat) (a b : list A) :
  take n (a ++ take n b) = take n (a ++ b).
Proof.
  rewrite !take_app, take_take. do 2 f_equal. lia.
Qed.

Lemma str_app_length (s t : string) :
  String.length (s +:+ t) = (String.length s + String.length t)%nat.
Proof. induction s as [| c s IH]; simpl; [done | by rewrite IH]. Qed.

Lemma str_take_length (n : nat) (s : string) :
  (n ≤ String.length s)%nat → String.length (Py.str_take n s) = n.
Proof.
  revert s. induction n as [| n IH]; intros s Hn; [by destruct s |].
  destruct s as [| c s]; simpl in *; [lia |].
  f_equal. apply IH. lia.
Qed.

Lemma str_take_prefix (n : nat) (s : string) :
  ∃ rest, s = Py.str_take n s +:+ rest.
Proof.
  revert s. induction n as [| n IH]; intros s.
  - exists s. by destruct s.
  - destruct s as [| c s]; simpl.
    + by exists "".
    + destruct (IH s) as [rest Hrest]. exists rest.
      change (String c s = String c (Py.str_take n s +:+ rest)).
      congruence.
Qed.

(** ** The history object *)

Section History.
Import DialogHistory.

Lemma add_entry_history r c m (h : t) (w : World) :
  history (fst (add_entry r c m h w))
  = Py.slice_to (max_items h)
      (mkEntry (clock w) r (stored_context c) m :: history h).
Proof. reflexivity. Qed.

Lemma add_entry_max_items r c m (h : t) (w : World) :
  max_items (fst (add_entry r c m h w)) = max_items h.
Proof. reflexivity. Qed.

Lemma add_all_max_items subs (hw : t * World) :
  max_items (fst (add_all subs hw)) = max_items (fst hw).
Proof.
  revert hw. induction subs as [| s subs IH]; intros hw; [done |].
  unfold add_all in *. simpl. by rewrite IH.
Qed.

Lemma add_all_history subs (hw : t * World) :
  0 ≤ max_items (fst hw) →
  (length (history (fst hw)) ≤ Z.to_nat (max_items (fst hw)))%nat →
  history (fst (add_all subs hw))
  = take (Z.to_nat (max_items (fst hw)))
      (reverse (entry_of <$> subs) ++ history (fst hw)).
Proof.
  revert hw. induction subs as [| s subs IH]; intros [h w] Hcap Hlen.
  - simpl in *. by rewrite take_ge.
  - change (add_all (s :: subs) (h, w))
      with (add_all subs (add_entry (s_response s) (s_context s) (s_mode s)
                            h (set_clock (s_time s) w))).
    rewrite IH; rewrite ?add_entry_max_items, ?add_entry_history;
      cbn [fst max_items history]; [| done |].
    + rewrite slice_to_nonneg by done.
      rewrite take_app_take, fmap_cons, reverse_cons, <- app_assoc.
      reflexivity.
    + rewrite slice_to_length by done. lia.
Qed.

Lemma save_history_file (h : t) (w : World) :
  history_file (save_history h w)
  = if history_writable w
    then Content (Py.slice_to (max_items h) (history h))
    else history_file w.
Proof. unfold save_history, write_history. by destruct (history_writable w). Qed.

Lemma add_entry_writable r c m (h : t) (w : World) :
  history_writable (snd (add_entry r c m h w)) = history_writable w.
Proof.
  unfold add_entry. cbn [snd]. unfold save_history, write_history.
  by destruct (history_writable w) eqn:Hw.
Qed.

Lemma add_all_snoc subs s (hw : t * World) :
  add_all (subs ++ [s]) hw
  = add_entry (s_response s) (s_context s) (s_mode s)
      (fst (add_all subs hw)) (set_clock (s_time s) (snd (add_all subs hw))).
Proof. unfold add_all. by rewrite foldl_app. Qed.

Lemma add_all_writable subs (hw : t * World) :
  history_writable (snd (add_all subs hw)) = history_writable (snd hw).
Proof.
  induction subs as [| s subs IH] using rev_ind; [done |].
  by rewrite add_all_snoc, add_entry_writable.
Qed.

(** After at least one append on a writable store, the file holds the
    log of the object. *)
Lemma add_all_file subs (hw : t * World) :
  0 ≤ max_items (fst hw) → subs ≠ [] → history_writable (snd hw) = true →
  history_file (snd (add_all subs hw))
  = Content (history (fst (add_all subs hw))).
Proof.
  intros Hcap Hne Hw.
  destruct subs as [| s subs _] using rev_ind; [done |].
  rewrite add_all_snoc. unfold add_entry. cbn [fst snd].
  rewrite save_history_file. cbn [history_writable set_clock].
  rewrite add_all_writable, Hw. cbn [max_items history].
  f_equal. rewrite add_all_max_items.
  rewrite !slice_to_nonneg by done. apply take_idemp.
Qed.

Lemma add_each_writable cap subs (w : World) :
  history_writable (add_each cap subs w) = history_writable w.
Proof.
  induction subs as [| s subs IH] using rev_ind; [done |].
  unfold add_each in *. rewrite foldl_app. cbn [foldl].
  by rewrite add_entry_writable.
Qed.

(** Across processes the file carries the log: on a writable store the
    log loaded after the runs is the log loaded before them with the new
    records in front, cut to the cap. *)
Lemma add_each_log cap subs (w : World) :
  0 ≤ cap → history_writable w = true →
  (length (load_history w) ≤ Z.to_nat cap)%nat →
  load_history (add_each cap subs w)
  = take (Z.to_nat cap) (reverse (entry_of <$> subs) ++ load_history w).
Proof.
  intros Hcap Hw. revert w Hw.
  induction subs as [| s subs IH]; intros w Hw Hlen.
  - simpl. by rewrite take_ge.
  - change (add_each cap (s :: subs) w)
      with (add_each cap subs
              (snd (add_entry (s_response s) (s_context s) (s_mode s)
                      (init cap (set_clock (s_time s) w))
                      (set_clock (s_time s) w)))).
    set (w1 := snd (add_entry _ _ _ _ _)).
    assert (Hlog : load_history w1
                   = take (Z.to_nat cap) (entry_of s :: load_history w)).
    { unfold load_history at 1. subst w1. unfold add_entry. cbn [snd].
      rewrite save_history_file. cbn [history_writable set_clock].
      rewrite Hw. cbn [exists_ read_file Py.try_except max_items history init].
      rewrite !slice_to_nonneg by done. by rewrite take_idemp. }
    rewrite IH.
    + rewrite Hlog, take_app_take, fmap_cons, reverse_cons, <- app_assoc.
      reflexivity.
    + subst w1. by rewrite add_entry_writable.
    + rewrite Hlog, length_take. lia.
Qed.

End History.

(** ** The window *)

Section GuiFacts.
Import Gui.

Lemma update_mode_indicator_pref (st : state) (w : World) :
  pref_file (update_mode_indicator st w)
  = if pref_writable w then Content (var_thinking_mode st) else pref_file w.
Proof.
  unfold update_mode_indicator, write_pref.
  by destruct (pref_writable w) eqn:Hw.
Qed.

Lemma update_mode_indicator_env (st : state) (w : World) :
  same_env w (update_mode_indicator st w)
  ∧ same_stores w (update_mode_indicator st w).
Proof.
  unfold update_mode_indicator, write_pref, same_env, same_stores.
  by destruct (pref_writable w) eqn:Hw.
Qed.

Lemma step_env ev (st : state) (w : World) :
  same_env w (snd (step ev (st, w))).
Proof.
  unfold step, same_env. destruct (running st); [| done].
  destruct ev; simpl;
    repeat match goal with |- context [?l !! ?i] => destruct (l !! i) end;
    try done.
  - cbn [snd]. apply update_mode_indicator_env.
  - unfold submit, DialogHistory.add_entry, DialogHistory.save_history,
      write_history, write_pref.
    destruct (pref_writable w) eqn:Hp, (history_writable w) eqn:Hh,
      (Py.truthy (var_result st)),
      (bool_decide (var_result st = CANCELLED)); simpl; by rewrite ?Hh.
Qed.

Lemma mainloop_app evs1 evs2 (sw : state * World) :
  mainloop (evs1 ++ evs2) sw = mainloop evs2 (mainloop evs1 sw).
Proof. apply foldl_app. Qed.

Lemma mainloop_stopped evs (sw : state * World) :
  running (fst sw) = false → mainloop evs sw = sw.
Proof.
  intros Hstop. induction evs as [| ev evs IH] using rev_ind; [done |].
  rewrite mainloop_app, IH. destruct sw as [st w]. simpl in *.
  by rewrite Hstop.
Qed.

(** Idle events keep the window open and leave the history and the
    output alone. *)
Lemma step_idle ev (st : state) (w : World) :
  idle ev = true → running st = true →
  running (fst (step ev (st, w))) = true
  ∧ history (fst (step ev (st, w))) = history st
  ∧ ctx (fst (step ev (st, w))) = ctx st
  ∧ same_stores w (snd (step ev (st, w))).
Proof.
  intros Hidle Hrun. unfold step, same_stores. rewrite Hrun.
  destruct ev; try discriminate; simpl;
    repeat match goal with |- context [?l !! ?i] => destruct (l !! i) end;
    try done.
  cbn [fst snd]. repeat split; try done; apply update_mode_indicator_env.
Qed.

Lemma mainloop_idle evs (sw : state * World) :
  forallb idle evs = true → running (fst sw) = true →
  running (fst (mainloop evs sw)) = true
  ∧ history (fst (mainloop evs sw)) = history (fst sw)
  ∧ ctx (fst (mainloop evs sw)) = ctx (fst sw)
  ∧ same_stores (snd sw) (snd (mainloop evs sw)).
Proof.
  intros Hidle Hrun. destruct sw as [st w]. cbn [fst snd] in *.
  induction evs as [| ev evs IH] using rev_ind; [done |].
  rewrite forallb_app in Hidle. apply andb_prop in Hidle as [Hevs Hev].
  simpl in Hev. rewrite andb_true_r in Hev.
  destruct (IH Hevs) as (Hr & Hh & Hc & Hf & Ho).
  rewrite mainloop_app. destruct (mainloop evs (st, w)) as [st1 w1].
  simpl in Hr, Hh, Hc, Hf, Ho.
  destruct (step_idle ev st1 w1 Hev Hr) as (Hr' & Hh' & Hc' & Hf' & Ho').
  change (mainloop [ev] (st1, w1)) with (step ev (st1, w1)).
  repeat split; congruence.
Qed.

Lemma build_running data (w : World) :
  running (fst (build data w)) = true.
Proof. reflexivity. Qed.

Lemma step_terminal ev (st : state) (w : World) :
  idle ev = false → running st = true →
  running (fst (step ev (st, w))) = false.
Proof.
  intros Hev Hrun. unfold step. rewrite Hrun.
  destruct ev; try discriminate; [unfold submit | done].
  by destruct (Py.truthy (var_result st)
               && negb (bool_decide (var_result st = CANCELLED))).
Qed.

(** A session is decided by its first Submit or Cancel. *)
Lemma mainloop_ends ev evs rest (sw : state * World) :
  forallb idle evs = true → idle ev = false → running (fst sw) = true →
  mainloop (evs ++ ev :: rest) sw = step ev (mainloop evs sw)
  ∧ running (fst (step ev (mainloop evs sw))) = false.
Proof.
  intros Hevs Hev Hrun. destruct sw as [st w].
  destruct (mainloop_idle evs (st, w) Hevs Hrun) as (Hr & _).
  destruct (mainloop evs (st, w)) as [st1 w1] eqn:Hloop.
  pose proof (step_terminal ev st1 w1 Hev Hr) as Hstop.
  split; [| done].
  rewrite mainloop_app, Hloop.
  change (mainloop (ev :: rest) (st1, w1))
    with (mainloop rest (step ev (st1, w1))).
  by apply mainloop_stopped.
Qed.

Lemma build_frame data (w : World) :
  same_env w (snd (build data w)) ∧ same_stores w (snd (build data w)).
Proof. apply update_mode_indicator_env. Qed.

(** The process, for a session that ends: it exits with status 0 in the
    world that the deciding event leaves. *)
Lemma main_session json_loads prog arg more data evs ev rest (w : World) :
  json_loads arg = Some data → forallb idle evs = true → idle ev = false →
  main json_loads (prog :: arg :: more) (evs ++ ev :: rest) w
  = (snd (step ev (mainloop evs (build data w))), Exited 0).
Proof.
  intros Hjson Hevs Hev. unfold main, show_dialog. rewrite Hjson.
  destruct (mainloop_ends ev evs rest (build data w) Hevs Hev
              (build_running data w)) as [-> Hstop].
  cbn [mret res_ret].
  destruct (step ev (mainloop evs (build data w))) as [st2 w2].
  cbn [fst snd] in *. by rewrite Hstop.
Qed.

Lemma submit_stdout (st : state) (w : World) :
  stdout (snd (submit st w))
  = stdout w ++ [encode (var_result st) (var_thinking_mode st)].
Proof.
  unfold submit, DialogHistory.add_entry, DialogHistory.save_history,
    write_history, write_pref.
  by destruct (pref_writable w) eqn:Hp, (history_writable w) eqn:Hh,
    (Py.truthy (var_result st)),
    (bool_decide (var_result st = CANCELLED)); simpl; rewrite ?Hh.
Qed.

Lemma mainloop_inv (P : state * World → Prop) :
  (∀ ev sw, P sw → P (step ev sw)) →
  ∀ evs sw, P sw → P (mainloop evs sw).
Proof.
  intros Hstep evs. induction evs as [| ev evs IH]; intros sw HP; [done |].
  apply IH, Hstep, HP.
Qed.

Lemma add_entry_pref r c m (h : DialogHistory.t) (w : World) :
  pref_file (snd (DialogHistory.add_entry r c m h w)) = pref_file w.
Proof.
  unfold DialogHistory.add_entry, DialogHistory.save_history, write_history.
  cbn [snd]. by destruct (history_writable w).
Qed.

Lemma submit_pref (st : state) (w : World) :
  pref_file (snd (submit st w))
  = if pref_writable w then Content (var_thinking_mode st) else pref_file w.
Proof.
  unfold submit, DialogHistory.add_entry, DialogHistory.save_history,
    write_history, write_pref.
  by destruct (pref_writable w) eqn:Hp, (history_writable w) eqn:Hh,
    (Py.truthy (var_result st)),
    (bool_decide (var_result st = CANCELLED)); simpl; rewrite ?Hh.
Qed.

Lemma submit_mode (st : state) (w : World) :
  var_thinking_mode (fst (submit st w)) = var_thinking_mode st.
Proof.
  unfold submit.
  by destruct (Py.truthy (var_result st)
               && negb (bool_decide (var_result st = CANCELLED))).
Qed.

(** On a writable preference file every step keeps the file equal to the
    mode shown. *)
Lemma step_pref_in_sync ev (sw : state * World) :
  pref_writable (snd sw) = true → pref_in_sync sw →
  pref_in_sync (step ev sw).
Proof.
  destruct sw as [st w]. unfold pref_in_sync, step. cbn [fst snd].
  intros Hw Hsync. destruct (running st); [| done].
  destruct ev; cbn [fst snd];
    repeat match goal with |- context [?l !! ?i] => destruct (l !! i) end;
    cbn [fst snd var_thinking_mode set_result pref_file print quit cancel];
    try done.
  - by rewrite update_mode_indicator_pref, Hw.
  - by rewrite submit_pref, submit_mode, Hw.
Qed.

Lemma load_saved_mode_known (w : World) :
  load_saved_mode w ∈ known_modes.
Proof.
  assert (Hn : "normal" ∈ known_modes) by (unfold known_modes; constructor).
  unfold load_saved_mode.
  destruct (pref_file w) as [| | text]; simpl; try exact Hn.
  unfold Py.str_in. by case_bool_decide.
Qed.

Lemma known_modes_modes (m : string) : m ∈ known_modes ↔ m ∈ modes.
Proof.
  unfold known_modes, modes. rewrite !elem_of_cons, !elem_of_nil. tauto.
Qed.

Lemma step_output_shape out0 ev (sw : state * World) :
  output_shape out0 sw → output_shape out0 (step ev sw).
Proof.
  destruct sw as [st w]. unfold output_shape, step. cbn [fst snd].
  intros [Hm Hout]. destruct (running st) eqn:Hrun;
    [| cbn [fst snd]; rewrite Hrun; by split].
  destruct Hout as [[_ Hout] | [[? _] | [? _]]]; try discriminate.
  destruct ev; cbn [fst snd].
  - destruct (modes !! i) as [m |] eqn:Hi; cbn [fst snd]; [| by auto].
    split; [by eapply list_elem_of_lookup_2 |]. left. split; [done |].
    by destruct (update_mode_indicator_env (set_thinking_mode m st) w)
      as (_ & _ & ->).
  - by auto.
  - destruct (opts st !! i); by auto.
  - destruct (recent_history st !! i); by auto.
  - rewrite submit_mode, submit_stdout. split; [done |].
    right; right. split.
    + apply (step_terminal Submit st w eq_refl) in Hrun as Hstop.
      unfold step in Hstop. by rewrite Hrun in Hstop.
    + exists (var_result st), (var_thinking_mode st). by rewrite Hout.
  - split; [done |]. right; left. by rewrite <- Hout.
Qed.

Lemma mainloop_env evs (sw : state * World) :
  same_env (snd sw) (snd (mainloop evs sw)).
Proof.
  apply (mainloop_inv (λ sw', same_env (snd sw) (snd sw'))); [| done].
  intros ev [st' w'] (Hp & Hh & Hc). pose proof (step_env ev st' w') as (? & ? & ?).
  unfold same_env in *. cbn [snd] in *. repeat split; congruence.
Qed.

Lemma keeps_mode_idle ev : keeps_mode ev = true → idle ev = true.
Proof. by destruct ev. Qed.

Lemma mainloop_keeps_mode evs (sw : state * World) :
  forallb keeps_mode evs = true →
  var_thinking_mode (fst (mainloop evs sw)) = var_thinking_mode (fst sw).
Proof.
  revert sw. induction evs as [| ev evs IH]; intros [st w] Hevs; [done |].
  simpl in Hevs. apply andb_prop in Hevs as [Hev Hevs].
  change (mainloop (ev :: evs) (st, w)) with (mainloop evs (step ev (st, w))).
  rewrite IH by done. unfold step. destruct (running st); [| done].
  destruct ev; try discriminate; cbn [fst];
    repeat match goal with |- context [?l !! ?i] => destruct (l !! i) end;
    done.
Qed.

(** Submit with a response to record. *)
Lemma submit_records (st : state) (w : World) :
  var_result st ≠ "" → var_result st ≠ CANCELLED →
  let e := mkEntry (clock w) (var_result st)
                   (DialogHistory.stored_context (ctx st))
                   (var_thinking_mode st) in
  let l := Py.slice_to (DialogHistory.max_items (history st))
                       (e :: DialogHistory.history (history st)) in
  DialogHistory.history (history (fst (submit st w))) = l
  ∧ history_file (snd (submit st w))
    = if history_writable w
      then Content (Py.slice_to (DialogHistory.max_items (history st)) l)
      else history_file w.
Proof.
  intros Hne Hnc e l. subst e l.
  unfold submit, DialogHistory.add_entry, DialogHistory.save_history,
    write_history, write_pref.
  rewrite (bool_decide_eq_false_2 _ Hnc).
  destruct (var_result st) as [| c r] eqn:Hr; [done |].
  by destruct (pref_writable w) eqn:Hp, (history_writable w) eqn:Hh;
    simpl; rewrite ?Hh.
Qed.

(** Submit with an empty response or the sentinel. *)
Lemma submit_skips (st : state) (w : World) :
  var_result st = "" ∨ var_result st = CANCELLED →
  history (fst (submit st w)) = history st
  ∧ history_file (snd (submit st w)) = history_file w.
Proof.
  intros Hr. unfold submit, write_pref.
  assert (Py.truthy (var_result st)
          && negb (bool_decide (var_result st = CANCELLED)) = false) as ->.
  { destruct Hr as [-> | ->]; [done |]. by rewrite andb_false_r. }
  by destruct (pref_writable w).
Qed.

End GuiFacts.

(** ** The listener *)

Section WebFacts.
Import Web.
Variable json_loads : string → option DecisionRequest.

(** A handler call never rebinds the module-level [result], prints
    nothing and leaves the history file alone. *)
Lemma do_GET_frame argv req (g : globals) (w : World) (h : handled) :
  do_GET json_loads argv req g w = Py.Ret h →
  h_globals h = g ∧ same_env w (h_world h) ∧ same_stores w (h_world h).
Proof.
  unfold do_GET, same_env, same_stores, mbind, res_bind, mret, res_ret.
  repeat case_bool_decide;
    try destruct (json_loads _); try discriminate;
    try destruct (Py.startswith _ _);
    try destruct (query_get0 _ "response" _); simpl; try discriminate;
    try destruct (query_get0 _ "mode" _); simpl; try discriminate;
    intros [= <-]; simpl; try done.
  all: unfold write_pref; by destruct (pref_writable w) eqn:Hw.
Qed.

Lemma serve_forever_frame argv reqs (g : globals) (w : World) :
  (serve_forever json_loads argv reqs g w).1.1 = g
  ∧ same_env w (serve_forever json_loads argv reqs g w).1.2
  ∧ same_stores w (serve_forever json_loads argv reqs g w).1.2.
Proof.
  revert g w. induction reqs as [| req reqs IH]; intros g w; [done |].
  simpl. destruct (do_GET json_loads argv req g w) as [h | e] eqn:Hh.
  - apply do_GET_frame in Hh as (-> & (Hp & Hw & Hc) & (Hf & Ho)).
    destruct (shutdown_called h).
    + by repeat split.
    + destruct (IH g (h_world h)) as (Hg & (Hp' & Hw' & Hc') & (Hf' & Ho')).
      unfold same_env, same_stores. repeat split; congruence.
  - apply IH.
Qed.

(** With an argument given, the process prints nothing at all. *)
Lemma main_prints_nothing b argv reqs (w : World) :
  (1 < length argv)%nat →
  same_stores w (main json_loads b argv reqs w).1.
Proof.
  intros Hlen. unfold main, show_web_dialog.
  destruct (Z.ltb_spec 1 (Z.of_nat (length argv))) as [_ | ?]; [| lia].
  destruct (serve_forever_frame argv reqs (mkGlobals None) w)
    as (Hg & _ & Hs).
  destruct (serve_forever json_loads argv reqs (mkGlobals None) w)
    as [[g' w'] stopped].
  simpl in Hg, Hs. subst g'.
  by destruct (stopped && b).
Qed.

Lemma load_saved_mode_same (w : World) :
  Web.load_saved_mode w = Gui.load_saved_mode w.
Proof. reflexivity. Qed.

(** The submit branch, for a request that carries both parameters. *)
Lemma do_GET_submit argv req (g : globals) (w : World) (r m : string) :
  Py.startswith (path req) "/submit" = true →
  query_get0 (query req) "response" "" = Py.Ret r →
  query_get0 (query req) "mode" "normal" = Py.Ret m →
  do_GET json_loads argv req g w
  = Py.Ret (mkHandled (Py.try_except (write_pref m w) w) g
                      (Some (encode r m)) true).
Proof.
  intros Hpath Hr Hm. unfold do_GET.
  case_bool_decide as Hroot.
  { rewrite Hroot in Hpath. discriminate. }
  rewrite Hpath. unfold mbind, res_bind. rewrite Hr. cbn [Py.bind].
  by rewrite Hm.
Qed.

End WebFacts.

(** ** The encoded result *)

(** The first Submit of a session: the line printed and the status. *)
Lemma gui_submit_line json_loads prog arg more data evs rest (w : World) :
  json_loads arg = Some data → forallb idle evs = true →
  let st := fst (Gui.mainloop evs (Gui.build data w)) in
  let out := Gui.main json_loads (prog :: arg :: more)
                      (evs ++ Gui.Submit :: rest) w in
  stdout out.1
  = stdout w ++ [Gui.var_result st +:+ "|||" +:+ Gui.var_thinking_mode st]
  ∧ out.2 = Exited 0.
Proof.
  intros Hjson Hevs st out. subst out.
  rewrite (main_session json_loads prog arg more data evs Gui.Submit rest w)
    by done.
  split; [| done]. cbn [fst snd].
  destruct (mainloop_idle evs _ Hevs (build_running data w))
    as (Hr & _ & _ & _ & Ho).
  destruct (build_frame data w) as (_ & _ & Ho').
  subst st. destruct (Gui.mainloop evs (Gui.build data w)) as [st1 w1].
  cbn [fst snd] in *. unfold Gui.step. rewrite Hr, submit_stdout.
  unfold encode, SEP. congruence.
Qed.

(** C1. A submission prints one line, the response, the separator and the
    mode. In the window: whatever happened before, the first Submit prints
    exactly that line for the response and mode then shown, and the process
    ends with status 0; typing [fix the bug] and choosing Deep prints
    [fix the bug|||deep]. In the listener the line is built but bound to a
    local of the handler: with an argument given, the process prints
    nothing, whatever requests arrive, and the same submission leaves
    standard output empty. *)
Theorem C1_submit_line :
  (∀ json_loads prog arg more data evs rest (w : World),
     json_loads arg = Some data → forallb idle evs = true →
     let st := fst (Gui.mainloop evs (Gui.build data w)) in
     let out := Gui.main json_loads (prog :: arg :: more)
                         (evs ++ Gui.Submit :: rest) w in
     stdout out.1
     = stdout w ++ [Gui.var_result st +:+ "|||" +:+ Gui.var_thinking_mode st]
     ∧ out.2 = Exited 0)
  ∧ stdout (Gui.main json0 argv0
              [Gui.EditResponse "fix the bug"; Gui.SelectMode 2; Gui.Submit]
              world0).1
    = ["fix the bug|||deep"]
  ∧ (∀ json_loads b argv reqs (w : World),
       (1 < length argv)%nat →
       stdout (Web.main json_loads b argv reqs w).1 = stdout w)
  ∧ Web.do_GET json0 argv0 req_submit0 (Web.mkGlobals None) world0
    = Py.Ret (Web.mkHandled (set_pref_file (Content "deep") world0)
                            (Web.mkGlobals None)
                            (Some "fix the bug|||deep") true)
  ∧ (∀ b, stdout (Web.main json0 b argv0 [req_submit0] world0).1 = []).
Proof.
  split; [| split; [| split; [| split]]].
  - intros json_loads prog arg more data evs rest w Hjson Hevs.
    by apply gui_submit_line.
  - reflexivity.
  - intros json_loads b argv reqs w Hlen.
    apply (main_prints_nothing json_loads b argv reqs w Hlen).
  - vm_compute. reflexivity.
  - intros b. apply (main_prints_nothing json0 b argv0 [req_submit0] world0).
    simpl. lia.
Qed.

Lemma C1_submit_line_witness :
  stdout (Gui.main json0 ("dialog.py" :: "{}" :: [])
            ([Gui.EditResponse "fix the bug"; Gui.SelectMode 2]
             ++ Gui.Submit :: []) world0).1
  = stdout world0 ++ ["fix the bug" +:+ "|||" +:+ "deep"]
  ∧ (Gui.main json0 ("dialog.py" :: "{}" :: [])
       ([Gui.EditResponse "fix the bug"; Gui.SelectMode 2]
        ++ Gui.Submit :: []) world0).2
    = Exited 0.
Proof.
  apply (proj1 C1_submit_line json0 "dialog.py" "{}" [] request0
           [Gui.EditResponse "fix the bug"; Gui.SelectMode 2] [] world0);
    reflexivity.
Defined.

(** C2. A cancelled run records nothing and prints [CANCELLED]. In the
    window: the first Cancel of a session prints exactly that token, leaves
    the history file and the log of the object as they were, and the
    process ends with status 0. In the listener the history file is never
    written either, but the token is bound to a local of the handler: the
    process prints nothing, and a [/cancel] request leaves standard output
    empty. *)
Theorem C2_cancel_token :
  (∀ json_loads prog arg more data evs rest (w : World),
     json_loads arg = Some data → forallb idle evs = true →
     let out := Gui.main json_loads (prog :: arg :: more)
                         (evs ++ Gui.Cancel :: rest) w in
     stdout out.1 = stdout w ++ ["CANCELLED"]
     ∧ history_file out.1 = history_file w
     ∧ Gui.history (Gui.mainloop (evs ++ Gui.Cancel :: rest)
                                 (Gui.build data w)).1
       = Gui.history (Gui.build data w).1
     ∧ out.2 = Exited 0)
  ∧ (∀ json_loads b argv reqs (w : World),
       (1 < length argv)%nat →
       history_file (Web.main json_loads b argv reqs w).1 = history_file w
       ∧ stdout (Web.main json_loads b argv reqs w).1 = stdout w)
  ∧ Web.do_GET json0 argv0 req_cancel0 (Web.mkGlobals None) world0
    = Py.Ret (Web.mkHandled world0 (Web.mkGlobals None) (Some "CANCELLED") true)
  ∧ (∀ b, stdout (Web.main json0 b argv0 [req_cancel0] world0).1 = []).
Proof.
  split; [| split; [| split]].
  - intros json_loads prog arg more data evs rest w Hjson Hevs out.
    subst out.
    rewrite (main_session json_loads prog arg more data evs Gui.Cancel rest w)
      by done.
    destruct (mainloop_ends Gui.Cancel evs rest (Gui.build data w) Hevs
                eq_refl (build_running data w)) as [-> _].
    destruct (mainloop_idle evs _ Hevs (build_running data w))
      as (Hr & Hh & _ & Hf & Ho).
    destruct (build_frame data w) as (_ & Hf' & Ho').
    destruct (Gui.mainloop evs (Gui.build data w)) as [st1 w1].
    cbn [fst snd] in *. unfold Gui.step. rewrite Hr.
    cbn [fst snd Gui.cancel print stdout history_file Gui.quit Gui.history].
    unfold CANCELLED. repeat split; congruence.
  - intros json_loads b argv reqs w Hlen.
    apply (main_prints_nothing json_loads b argv reqs w Hlen).
  - vm_compute. reflexivity.
  - intros b. apply (main_prints_nothing json0 b argv0 [req_cancel0] world0).
    simpl. lia.
Qed.

Lemma C2_cancel_token_witness :
  stdout (Gui.main json0 ("dialog.py" :: "{}" :: [])
            ([Gui.SelectMode 3] ++ Gui.Cancel :: []) world0).1
  = stdout world0 ++ ["CANCELLED"]
  ∧ history_file (Gui.main json0 ("dialog.py" :: "{}" :: [])
                    ([Gui.SelectMode 3] ++ Gui.Cancel :: []) world0).1
    = history_file world0.
Proof.
  destruct (proj1 C2_cancel_token json0 "dialog.py" "{}" [] request0
              [Gui.SelectMode 3] [] world0 eq_refl eq_refl)
    as (Hout & Hfile & _).
  split; [exact Hout | exact Hfile].
Defined.

(** ** The preference file *)

Lemma strip_mode (m : string) : m ∈ known_modes → Py.strip m = m.
Proof.
  unfold known_modes. rewrite !elem_of_cons, elem_of_nil.
  intros [-> | [-> | [-> | [-> | []]]]]; reflexivity.
Qed.

Lemma load_content (text : string) (w : World) :
  pref_file w = Content text →
  Gui.load_saved_mode w
  = if bool_decide (Py.strip text ∈ known_modes) then Py.strip text
    else "normal".
Proof. intros Hw. unfold Gui.load_saved_mode. by rewrite Hw. Qed.

Lemma load_after_write (m : string) (w : World) :
  m ∈ known_modes → pref_writable w = true →
  Gui.load_saved_mode (Py.try_except (write_pref m w) w) = m.
Proof.
  intros Hm Hw. unfold write_pref. rewrite Hw. cbn [Py.try_except].
  rewrite (load_content m) by done.
  rewrite strip_mode by done. by rewrite bool_decide_eq_true_2.
Qed.

(** C4. The log never grows past the cap, a new record goes to the front
    and the oldest ones fall off: for a cap [cap >= 0], one [add_entry] on
    any log leaves the new record followed by the first [cap - 1] old ones;
    [N] submissions on an empty log leave the [min N cap] most recent
    records, most recent first, which is also what a writable history file
    then holds, and what the next process loads when each submission runs
    in a process of its own; and the object of the dialog is built with
    cap 10. *)
Theorem C4_history_capped_newest_first (cap : Z) (Hcap : 0 ≤ cap) :
  (∀ r c m l w,
     let e := mkEntry (clock w) r (DialogHistory.stored_context c) m in
     let h' := fst (DialogHistory.add_entry r c m (DialogHistory.mk cap l) w) in
     (length (DialogHistory.history h') ≤ Z.to_nat cap)%nat
     ∧ DialogHistory.history h' = take (Z.to_nat cap) (e :: l)
     ∧ (0 < cap →
        DialogHistory.history h' = e :: take (Z.to_nat cap - 1) l))
  ∧ (∀ subs w,
       let hw' := add_all subs (DialogHistory.mk cap [], w) in
       length (DialogHistory.history (fst hw'))
       = Nat.min (length subs) (Z.to_nat cap)
       ∧ DialogHistory.history (fst hw')
         = take (Z.to_nat cap) (reverse (entry_of <$> subs))
       ∧ (subs ≠ [] → history_writable w = true →
          history_file (snd hw')
          = Content (take (Z.to_nat cap) (reverse (entry_of <$> subs)))))
  ∧ (∀ subs w, history_file w = Missing → history_writable w = true →
       DialogHistory.load_history (add_each cap subs w)
       = take (Z.to_nat cap) (reverse (entry_of <$> subs)))
  ∧ (∀ w, history_file w = Missing →
       DialogHistory.init DialogHistory.default_max_items w
       = DialogHistory.mk 10 []).
Proof.
  split; [| split; [| split]].
  - intros r c m l w e h'. subst h'.
    rewrite add_entry_history. cbn [DialogHistory.max_items
      DialogHistory.history]. rewrite slice_to_nonneg by done. fold e.
    split; [rewrite length_take; lia |]. split; [done |].
    intros Hpos. destruct (Z.to_nat cap) as [| n] eqn:Hn; [lia |].
    simpl. by rewrite Nat.sub_0_r.
  - intros subs w hw'. subst hw'.
    assert (Hh : DialogHistory.history
                   (fst (add_all subs (DialogHistory.mk cap [], w)))
                 = take (Z.to_nat cap) (reverse (entry_of <$> subs))).
    { rewrite add_all_history; cbn [fst DialogHistory.max_items
        DialogHistory.history]; [by rewrite app_nil_r | done | simpl; lia]. }
    split; [| split].
    + rewrite Hh, length_take, length_reverse, length_fmap. lia.
    + exact Hh.
    + intros Hne Hw. rewrite add_all_file; [by rewrite Hh | done.. ].
  - intros subs w Hf Hw.
    assert (Hempty : DialogHistory.load_history w = [])
      by (unfold DialogHistory.load_history; by rewrite Hf).
    rewrite add_each_log; rewrite ?Hempty; [by rewrite app_nil_r | done.. |].
    simpl. lia.
  - intros w Hw. unfold DialogHistory.init, DialogHistory.load_history.
    by rewrite Hw.
Qed.


Lemma C4_history_capped_witness :
  let subs := (λ n, mkSub "t" (String (ascii_of_nat (65 + n)) "") "c" "deep")
                <$> seq 0 11 in
  length (DialogHistory.history
            (fst (add_all subs (DialogHistory.mk 10 [], world0)))) = 10%nat
  ∧ head (DialogHistory.history
            (fst (add_all subs (DialogHistory.mk 10 [], world0))))
    = Some (mkEntry "t" "K" "c" "deep").
Proof.
  intros subs.
  destruct (C4_history_capped_newest_first 10 ltac:(lia)) as (_ & Hseq & _).
  destruct (Hseq subs world0) as (Hlen & Hh & _).
  split; [exact Hlen | rewrite Hh; reflexivity].
Defined.


(** C5. The context of a new record: a context of more than 100
    characters is stored as its first 100 characters followed by [...],
    a shorter one as it is; and that is the context of the record that
    [add_entry] puts in front. *)
Theorem C5_context_truncated (c : string) :
  ((100 < String.length c)%nat →
   DialogHistory.stored_context c = Py.str_take 100 c +:+ "..."
   ∧ String.length (Py.str_take 100 c) = 100%nat
   ∧ ∃ rest, c = Py.str_take 100 c +:+ rest)
  ∧ ((String.length c ≤ 100)%nat → DialogHistory.stored_context c = c)
  ∧ (∀ r m h w, 0 < DialogHistory.max_items h →
       head (DialogHistory.history (DialogHistory.add_entry r c m h w).1)
       = Some (mkEntry (clock w) r (DialogHistory.stored_context c) m)).
Proof.
  split; [| split].
  - intros Hlong. unfold DialogHistory.stored_context.
    destruct (Nat.ltb_spec 100 (String.length c)) as [_ | ?]; [| lia].
    split; [done |]. split; [apply str_take_length; lia |].
    apply str_take_prefix.
  - intros Hshort. unfold DialogHistory.stored_context.
    by destruct (Nat.ltb_spec 100 (String.length c)) as [? | _]; [lia |].
  - intros r m h w Hcap. rewrite add_entry_history.
    rewrite slice_to_nonneg by lia.
    destruct (Z.to_nat (DialogHistory.max_items h)) as [| n] eqn:Hn; [lia |].
    reflexivity.
Qed.

Lemma C5_context_truncated_witness :
  DialogHistory.stored_context long_context
  = "0123456789012345678901234567890123456789012345678901234567890123456789012345678901234567890123456789..."
  ∧ DialogHistory.stored_context "Which fix should be applied?"
    = "Which fix should be applied?"
  ∧ head (DialogHistory.history
            (DialogHistory.add_entry "A" long_context "deep"
               (DialogHistory.mk 10 []) world0).1)
    = Some (mkEntry "2025-06-01T12:00:00" "A"
              (DialogHistory.stored_context long_context) "deep").
Proof.
  split; [| split].
  - apply (proj1 (C5_context_truncated long_context)). simpl. lia.
  - apply (proj1 (proj2 (C5_context_truncated
                           "Which fix should be applied?"))). simpl. lia.
  - apply (proj2 (proj2 (C5_context_truncated long_context))). simpl. lia.
Defined.

(** C7. Loading the preference never fails and falls back to [normal]:
    with the file missing, with a file that cannot be read, and with a
    text that, once stripped of surrounding white space, is not one of the
    four modes, both loaders return [normal]; a stored mode is returned as
    it is; in every world the loader of the page returns what the loader of
    the window returns, one of the four modes. *)
Theorem C7_load_falls_back_to_normal (w : World) :
  (pref_file w = Missing →
   Gui.load_saved_mode w = "normal" ∧ Web.load_saved_mode w = "normal")
  ∧ (pref_file w = Unreadable →
     Gui.load_saved_mode w = "normal" ∧ Web.load_saved_mode w = "normal")
  ∧ (∀ text, pref_file w = Content text → Py.strip text ∉ known_modes →
       Gui.load_saved_mode w = "normal" ∧ Web.load_saved_mode w = "normal")
  ∧ (∀ text, pref_file w = Content text → Py.strip text ∈ known_modes →
       Gui.load_saved_mode w = Py.strip text
       ∧ Web.load_saved_mode w = Py.strip text)
  ∧ Web.load_saved_mode w = Gui.load_saved_mode w
  ∧ Gui.load_saved_mode w ∈ ["quick"; "normal"; "deep"; "ultra"].
Proof.
  change Web.load_saved_mode with Gui.load_saved_mode.
  split; [| split; [| split; [| split; [| split]]]].
  - intros Hw. unfold Gui.load_saved_mode. by rewrite Hw.
  - intros Hw. unfold Gui.load_saved_mode. by rewrite Hw.
  - intros text Hw Hbad. rewrite (load_content text) by done.
    by rewrite bool_decide_eq_false_2.
  - intros text Hw Hok. rewrite (load_content text) by done.
    by rewrite bool_decide_eq_true_2.
  - reflexivity.
  - apply known_modes_modes, load_saved_mode_known.
Qed.

Lemma C7_load_falls_back_witness :
  Gui.load_saved_mode world0 = "normal"
  ∧ Gui.load_saved_mode (set_pref_file Unreadable world0) = "normal"
  ∧ Gui.load_saved_mode (set_pref_file (Content "turbo") world0) = "normal"
  ∧ Web.load_saved_mode (set_pref_file (Content "") world0) = "normal".
Proof.
  split; [| split; [| split]].
  - apply (proj1 (C7_load_falls_back_to_normal world0)). reflexivity.
  - apply (proj1 (proj2 (C7_load_falls_back_to_normal
                           (set_pref_file Unreadable world0)))).
    reflexivity.
  - apply (proj1 (proj2 (proj2 (C7_load_falls_back_to_normal
                                  (set_pref_file (Content "turbo") world0))))
             "turbo"); [reflexivity |].
    apply (bool_decide_eq_false_1 (Py.strip "turbo" ∈ known_modes)).
    vm_compute. reflexivity.
  - apply (proj1 (proj2 (proj2 (C7_load_falls_back_to_normal
                                  (set_pref_file (Content "") world0))))
             ""); [reflexivity |].
    apply (bool_decide_eq_false_1 (Py.strip "" ∈ known_modes)).
    vm_compute. reflexivity.
Defined.

(** C6. Saving a mode and loading it back: for each of the four modes and
    a preference file that can be written, every place that saves the mode
    (Submit in the window, a change of the selection in the window, a
    [/submit] request to the listener) leaves a file from which both
    loaders return that mode. *)
Theorem C6_save_then_load (m : string) (w : World) :
  m ∈ ["quick"; "normal"; "deep"; "ultra"] → pref_writable w = true →
  (∀ st, Gui.var_thinking_mode st = m →
     Gui.load_saved_mode (Gui.submit st w).2 = m
     ∧ Web.load_saved_mode (Gui.submit st w).2 = m
     ∧ Gui.load_saved_mode (Gui.update_mode_indicator st w) = m
     ∧ Web.load_saved_mode (Gui.update_mode_indicator st w) = m)
  ∧ (∀ json_loads argv req g r,
       Py.startswith (Web.path req) "/submit" = true →
       Web.query_get0 (Web.query req) "response" "" = Py.Ret r →
       Web.query_get0 (Web.query req) "mode" "normal" = Py.Ret m →
       ∃ h, Web.do_GET json_loads argv req g w = Py.Ret h
            ∧ Gui.load_saved_mode (Web.h_world h) = m
            ∧ Web.load_saved_mode (Web.h_world h) = m).
Proof.
  intros Hm Hw. apply known_modes_modes in Hm.
  split.
  - intros st <-. change Web.load_saved_mode with Gui.load_saved_mode.
    assert (Hsub : Gui.load_saved_mode (Gui.submit st w).2
                   = Gui.var_thinking_mode st).
    { pose proof (submit_pref st w) as Hp. rewrite Hw in Hp.
      rewrite (load_content _ _ Hp), strip_mode by done.
      by rewrite bool_decide_eq_true_2. }
    assert (Hupd : Gui.load_saved_mode (Gui.update_mode_indicator st w)
                   = Gui.var_thinking_mode st)
      by (by apply load_after_write).
    done.
  - intros json_loads argv req g r Hpath Hr Hmode.
    eexists. split; [by apply do_GET_submit |].
    cbn [Web.h_world]. change Web.load_saved_mode with Gui.load_saved_mode.
    by rewrite load_after_write.
Qed.

Lemma C6_save_then_load_witness :
  Gui.load_saved_mode (Gui.submit (state_showing "deep") world0).2 = "deep"
  ∧ ∃ h, Web.do_GET json0 argv0 req_submit0 (Web.mkGlobals None) world0
         = Py.Ret h
         ∧ Web.load_saved_mode (Web.h_world h) = "deep".
Proof.
  assert (Hm : "deep" ∈ ["quick"; "normal"; "deep"; "ultra"])
    by (apply (bool_decide_unpack _); vm_compute; exact I).
  destruct (C6_save_then_load "deep" world0 Hm eq_refl) as [Hgui Hweb].
  split.
  - apply (Hgui (state_showing "deep") eq_refl).
  - destruct (Hweb json0 argv0 req_submit0 (Web.mkGlobals None) "fix the bug"
                eq_refl eq_refl eq_refl) as (h & Hh & _ & Hload).
    by exists h.
Defined.

(** ** Submitting *)

(** C3, as the scripts have it. Submit in the window writes the mode shown
    to a writable preference file; with a response that is neither empty
    nor [CANCELLED] it puts a record of the response, the stored context
    and the mode in front of the loaded log, cut to 10, and writes that log
    to a writable history file; with an empty response or [CANCELLED] the
    log and the history file stay as they were. A [/submit] request to the
    listener writes the mode it carries to a writable preference file and
    leaves the history file alone, as does every run of the listener. *)
Theorem C3_submit_persistence :
  (∀ data evs rest (w : World), forallb idle evs = true →
     let st := (Gui.mainloop evs (Gui.build data w)).1 in
     let r := Gui.var_result st in
     let m := Gui.var_thinking_mode st in
     let e := mkEntry (clock w) r
                (DialogHistory.stored_context (decision_context data)) m in
     let sw' := Gui.mainloop (evs ++ Gui.Submit :: rest) (Gui.build data w) in
     (pref_writable w = true → pref_file sw'.2 = Content m)
     ∧ (r ≠ "" → r ≠ "CANCELLED" →
        DialogHistory.history (Gui.history sw'.1)
        = take 10 (e :: DialogHistory.load_history w)
        ∧ (history_writable w = true →
           history_file sw'.2
           = Content (take 10 (e :: DialogHistory.load_history w))))
     ∧ (r = "" ∨ r = "CANCELLED" →
        Gui.history sw'.1 = Gui.history (Gui.build data w).1
        ∧ history_file sw'.2 = history_file w))
  ∧ (∀ json_loads argv req g (w : World) r m,
       Py.startswith (Web.path req) "/submit" = true →
       Web.query_get0 (Web.query req) "response" "" = Py.Ret r →
       Web.query_get0 (Web.query req) "mode" "normal" = Py.Ret m →
       ∃ h, Web.do_GET json_loads argv req g w = Py.Ret h
            ∧ (pref_writable w = true → pref_file (Web.h_world h) = Content m)
            ∧ history_file (Web.h_world h) = history_file w)
  ∧ (∀ json_loads b argv reqs (w : World), (1 < length argv)%nat →
       history_file (Web.main json_loads b argv reqs w).1 = history_file w).
Proof.
  split; [| split].
  - intros data evs rest w Hevs st r m e sw'.
    destruct (mainloop_ends Gui.Submit evs rest (Gui.build data w) Hevs
                eq_refl (build_running data w)) as [Hloop _].
    destruct (mainloop_idle evs _ Hevs (build_running data w))
      as (Hr & Hh & Hc & Hf & _).
    destruct (mainloop_env evs (Gui.build data w)) as (Hpw & Hhw & Hck).
    destruct (build_frame data w) as ((Hpw' & Hhw' & Hck') & Hf' & _).
    subst sw'. rewrite Hloop. subst e r m st.
    destruct (Gui.mainloop evs (Gui.build data w)) as [st1 w1].
    cbn [fst snd] in *. unfold Gui.step. rewrite Hr.
    assert (Hcap : DialogHistory.max_items (Gui.history st1) = 10)
      by (by rewrite Hh).
    assert (Hlog : DialogHistory.history (Gui.history st1)
                   = DialogHistory.load_history w) by (by rewrite Hh).
    split; [| split].
    + intros Hw. rewrite submit_pref. by rewrite Hpw, Hpw', Hw.
    + intros Hne Hnc.
      destruct (submit_records st1 w1 Hne Hnc) as [Hobj Hfile].
      rewrite Hobj, Hfile, Hcap, Hlog, Hc, Hck, Hck'.
      change (Gui.ctx (Gui.build data w).1) with (decision_context data).
      rewrite !slice_to_nonneg by lia.
      change (Z.to_nat 10) with 10%nat. split; [done |].
      intros Hw. by rewrite Hhw, Hhw', Hw, take_idemp.
    + intros Hskip. destruct (submit_skips st1 w1 Hskip) as [-> ->].
      split; congruence.
  - intros json_loads argv req g w r m Hpath Hr Hm.
    eexists. split; [by apply do_GET_submit |]. cbn [Web.h_world].
    unfold write_pref. by destruct (pref_writable w) eqn:Hw.
  - intros json_loads b argv reqs w Hlen.
    apply (main_prints_nothing json_loads b argv reqs w Hlen).
Qed.

Lemma C3_submit_persistence_witness :
  history_file
    (Gui.mainloop ([Gui.EditResponse "fix the bug"; Gui.SelectMode 2]
                   ++ Gui.Submit :: []) (Gui.build request0 world0)).2
  = Content [mkEntry "2025-06-01T12:00:00" "fix the bug"
               "Which fix should be applied?" "deep"]
  ∧ pref_file
      (Gui.mainloop ([Gui.EditResponse "fix the bug"; Gui.SelectMode 2]
                     ++ Gui.Submit :: []) (Gui.build request0 world0)).2
    = Content "deep".
Proof.
  destruct (proj1 C3_submit_persistence request0
              [Gui.EditResponse "fix the bug"; Gui.SelectMode 2] [] world0
              eq_refl) as (Hpref & Hrec & _).
  split.
  - apply Hrec; [discriminate | discriminate | reflexivity].
  - apply Hpref. reflexivity.
Defined.

(** The listener, asked to submit [fix the bug] in mode [deep] with a
    writable, empty history store: the handler builds the result and saves
    the mode, and the history file stays absent although the response is
    neither empty nor the sentinel. *)
Lemma C3_listener_records_nothing :
  (∃ h, Web.do_GET json0 argv0 req_submit0 (Web.mkGlobals None) world0
        = Py.Ret h
        ∧ Web.local_result h = Some "fix the bug|||deep"
        ∧ pref_file (Web.h_world h) = Content "deep"
        ∧ history_file (Web.h_world h) = Missing
        ∧ ¬ records_iff_response "fix the bug" world0 (Web.h_world h))
  ∧ history_writable world0 = true
  ∧ ¬ records_iff_response "fix the bug" world0
        (Web.main json0 true argv0 [req_submit0] world0).1.
Proof.
  assert (Hno : ∀ w', history_file w' = Missing →
            ¬ records_iff_response "fix the bug" world0 w').
  { intros w' Hw' [_ Hrec]. apply Hrec; [| by rewrite Hw'].
    split; discriminate. }
  split; [| split].
  - eexists. split; [vm_compute; reflexivity |].
    repeat split. by apply Hno.
  - reflexivity.
  - apply Hno. vm_compute. reflexivity.
Qed.

(** ** The mode of the result *)



(** ** Exit status *)

(** C9, and where the scripts fall short of it. Without the argument both
    scripts print [ERROR: No input provided] and exit with status 1, and a
    session of the window that reaches Submit or Cancel exits with status
    0. The listener does not get there: its handlers call
    [server.shutdown()] on the serving thread, the call does not return,
    and started with its argument the script never exits, whatever
    requests arrive; after [/cancel] and after [/submit] it is left
    waiting. Nor does a window closed through the window manager: the
    process then ends with status 1 and has printed nothing. *)
Theorem C9_exit_status_of_runs :
  (∀ json_loads argv events (w : World), (length argv ≤ 1)%nat →
     Gui.main json_loads argv events w
     = (print "ERROR: No input provided" w, Exited 1))
  ∧ (∀ json_loads b argv reqs (w : World), (length argv ≤ 1)%nat →
       Web.main json_loads b argv reqs w
       = (print "ERROR: No input provided" w, Exited 1))
  ∧ (∀ json_loads prog arg more data evs ev rest (w : World),
       json_loads arg = Some data → forallb idle evs = true →
       idle ev = false →
       (Gui.main json_loads (prog :: arg :: more) (evs ++ ev :: rest) w).2
       = Exited 0)
  ∧ (∀ json_loads argv reqs (w : World), (1 < length argv)%nat →
       (web_script json_loads argv reqs w).2 = Waiting)
  ∧ web_script json0 argv0 [req_cancel0] world0 = (world0, Waiting)
  ∧ web_script json0 argv0 [req_submit0] world0
    = (set_pref_file (Content "deep") world0, Waiting)
  ∧ (∀ json_loads prog arg more data evs (w : World),
       json_loads arg = Some data → forallb idle evs = true →
       let out := gui_script_window_closed json_loads (prog :: arg :: more)
                    evs w in
       out.2 = Exited 1 ∧ stdout out.1 = stdout w).
Proof.
  split; [| split; [| split; [| split; [| split; [| split]]]]].
  - intros json_loads argv events w Hlen.
    by destruct argv as [| prog [| arg more]]; [| | simpl in Hlen; lia].
  - intros json_loads b argv reqs w Hlen. unfold Web.main.
    by destruct (Z.ltb_spec 1 (Z.of_nat (length argv))) as [? | _]; [lia |].
  - intros json_loads prog arg more data evs ev rest w Hjson Hevs Hev.
    by rewrite (main_session json_loads prog arg more data evs ev rest w).
  - intros json_loads argv reqs w Hlen.
    unfold web_script, Web.main, Web.show_web_dialog,
      shutdown_returns_in_handler.
    destruct (Z.ltb_spec 1 (Z.of_nat (length argv))) as [_ | ?]; [| lia].
    destruct (Web.serve_forever json_loads argv reqs (Web.mkGlobals None) w)
      as [[g' w'] stopped].
    by rewrite andb_false_r.
  - vm_compute. reflexivity.
  - vm_compute. reflexivity.
  - intros json_loads prog arg more data evs w Hjson Hevs out. subst out.
    unfold gui_script_window_closed, Gui.main, Gui.show_dialog.
    rewrite Hjson. cbn [mret res_ret].
    destruct (mainloop_idle evs _ Hevs (build_running data w))
      as (Hr & _ & _ & _ & Ho).
    destruct (build_frame data w) as (_ & _ & Ho').
    destruct (Gui.mainloop evs (Gui.build data w)) as [st1 w1].
    cbn [fst snd] in *. rewrite Hr. cbn [fst snd].
    split; [done | congruence].
Qed.

Lemma C9_exit_status_of_runs_witness :
  Gui.main json0 ["dialog.py"] [Gui.Submit] world0
  = (print "ERROR: No input provided" world0, Exited 1)
  ∧ (Gui.main json0 ("dialog.py" :: "{}" :: [])
       ([Gui.SelectMode 0] ++ Gui.Cancel :: []) world0).2 = Exited 0
  ∧ (web_script json0 argv0 [req_cancel0; req_submit0] world0).2 = Waiting
  ∧ (gui_script_window_closed json0 ("dialog.py" :: "{}" :: [])
       [Gui.EditResponse "yes"] world0).2 = Exited 1.
Proof.
  destruct C9_exit_status_of_runs as (Hg & _ & Hs & Hweb & _ & _ & Hclose).
  split; [| split; [| split]].
  - apply Hg. simpl. lia.
  - apply (Hs json0 "dialog.py" "{}" [] request0 [Gui.SelectMode 0]
              Gui.Cancel [] world0); reflexivity.
  - apply Hweb. simpl. lia.
  - apply (Hclose json0 "dialog.py" "{}" [] request0
             [Gui.EditResponse "yes"] world0); reflexivity.
Defined.

(** ** The mode indicator *)

(** C10. In the window, on a preference file that can be written: building
    the window writes the loaded mode to the file; after any events the
    file holds the mode shown; a change of the selection writes the newly
    selected mode at once, before any Submit; and when the session goes on
    without another change and is then cancelled, the process ends with
    the last selected mode in the file. *)
Theorem C10_selection_saved_at_once (data : DecisionRequest) (w : World) :
  pref_writable w = true →
  pref_file (Gui.build data w).2 = Content (Gui.load_saved_mode w)
  ∧ (∀ events,
       pref_file (Gui.mainloop events (Gui.build data w)).2
       = Content (Gui.var_thinking_mode
                    (Gui.mainloop events (Gui.build data w)).1))
  ∧ (∀ evs i m, forallb idle evs = true → Gui.modes !! i = Some m →
       pref_file (Gui.mainloop (evs ++ [Gui.SelectMode i])
                               (Gui.build data w)).2
       = Content m)
  ∧ (∀ json_loads prog arg more evs i m evs' rest,
       json_loads arg = Some data → forallb idle evs = true →
       Gui.modes !! i = Some m → forallb keeps_mode evs' = true →
       let out := Gui.main json_loads (prog :: arg :: more)
                    (evs ++ Gui.SelectMode i :: evs' ++ Gui.Cancel :: rest)
                    w in
       pref_file out.1 = Content m ∧ stdout out.1 = stdout w ++ ["CANCELLED"]).
Proof.
  intros Hw.
  assert (Hsync : ∀ events,
            pref_in_sync (Gui.mainloop events (Gui.build data w))).
  { intros events.
    apply (mainloop_inv (λ sw, pref_writable sw.2 = true ∧ pref_in_sync sw)).
    - intros ev [st1 w1] [Hw1 Hs]. split; [| by apply step_pref_in_sync].
      destruct (step_env ev st1 w1) as (-> & _). exact Hw1.
    - split.
      + destruct (build_frame data w) as ((-> & _) & _). exact Hw.
      + unfold pref_in_sync, Gui.build. cbn [fst snd].
        by rewrite update_mode_indicator_pref, Hw. }
  assert (Hsel : ∀ evs i m, forallb idle evs = true →
            Gui.modes !! i = Some m →
            Gui.var_thinking_mode
              (Gui.mainloop (evs ++ [Gui.SelectMode i]) (Gui.build data w)).1
            = m
            ∧ Gui.running
                (Gui.mainloop (evs ++ [Gui.SelectMode i])
                              (Gui.build data w)).1 = true).
  { intros evs i m Hevs Hi.
    destruct (mainloop_idle evs _ Hevs (build_running data w)) as (Hr & _).
    rewrite mainloop_app.
    destruct (Gui.mainloop evs (Gui.build data w)) as [st1 w1].
    cbn [fst] in Hr.
    change (Gui.mainloop [Gui.SelectMode i] (st1, w1))
      with (Gui.step (Gui.SelectMode i) (st1, w1)).
    unfold Gui.step. by rewrite Hr, Hi. }
  split; [| split; [| split]].
  - unfold Gui.build. cbn [snd].
    by rewrite update_mode_indicator_pref, Hw.
  - intros events. apply Hsync.
  - intros evs i m Hevs Hi.
    specialize (Hsync (evs ++ [Gui.SelectMode i])). unfold pref_in_sync in Hsync.
    rewrite Hsync. f_equal. by apply Hsel.
  - intros json_loads prog arg more evs i m evs' rest Hjson Hevs Hi Hkeep out.
    subst out.
    assert (Hidle : forallb idle (evs ++ Gui.SelectMode i :: evs') = true).
    { rewrite forallb_app, Hevs. cbn [forallb andb idle].
      apply forallb_forall. intros ev Hev. apply keeps_mode_idle.
      by eapply forallb_forall in Hkeep. }
    replace (evs ++ Gui.SelectMode i :: evs' ++ Gui.Cancel :: rest)
      with ((evs ++ Gui.SelectMode i :: evs') ++ Gui.Cancel :: rest)
      by (by rewrite <- app_assoc).
    rewrite (main_session json_loads prog arg more data _ Gui.Cancel rest w)
      by done.
    cbn [fst].
    destruct (mainloop_idle _ _ Hidle (build_running data w))
      as (Hr & _ & _ & _ & Ho).
    destruct (build_frame data w) as (_ & _ & Ho').
    pose proof (Hsync (evs ++ Gui.SelectMode i :: evs')) as Hs.
    unfold pref_in_sync in Hs.
    assert (Hmode : Gui.var_thinking_mode
                      (Gui.mainloop (evs ++ Gui.SelectMode i :: evs')
                                    (Gui.build data w)).1 = m).
    { replace (evs ++ Gui.SelectMode i :: evs')
        with ((evs ++ [Gui.SelectMode i]) ++ evs')
        by (by rewrite <- app_assoc).
      rewrite mainloop_app, mainloop_keeps_mode by done. by apply Hsel. }
    destruct (Gui.mainloop (evs ++ Gui.SelectMode i :: evs')
                           (Gui.build data w)) as [st1 w1].
    cbn [fst snd] in *. unfold Gui.step. rewrite Hr.
    cbn [snd Gui.cancel print pref_file stdout]. unfold CANCELLED.
    split; congruence.
Qed.

Lemma C10_selection_saved_witness :
  pref_file (Gui.main json0 ("dialog.py" :: "{}" :: [])
               ([Gui.SelectMode 0] ++ Gui.SelectMode 3
                :: [Gui.EditResponse "never mind"] ++ Gui.Cancel :: [])
               world0).1
  = Content "ultra"
  ∧ pref_file (Gui.build request0 world0).2 = Content "normal".
Proof.
  destruct (C10_selection_saved_at_once request0 world0 eq_refl)
    as (Hbuild & _ & _ & Hcancel).
  split; [| exact Hbuild].
  apply (Hcancel json0 "dialog.py" "{}" [] [Gui.SelectMode 0] 3%nat "ultra"
           [Gui.EditResponse "never mind"] []); reflexivity.
Defined.

(** * Further properties of the three scripts *)

(** ** history.py *)

(** X1. Saving and loading the log: on a writable store and for a cap
    [>= 0], what [load_history] reads after [save_history] is the log cut
    to the cap; a log within the cap comes back unchanged, so a new object
    built from the file equals the one that saved it. *)
Theorem X1_history_save_then_load (h : DialogHistory.t) (w : World) :
  history_writable w = true → 0 ≤ DialogHistory.max_items h →
  DialogHistory.load_history (DialogHistory.save_history h w)
  = take (Z.to_nat (DialogHistory.max_items h)) (DialogHistory.history h)
  ∧ ((length (DialogHistory.history h)
      ≤ Z.to_nat (DialogHistory.max_items h))%nat →
     DialogHistory.init (DialogHistory.max_items h)
                        (DialogHistory.save_history h w) = h).
Proof.
  intros Hw Hcap.
  assert (Hload : DialogHistory.load_history (DialogHistory.save_history h w)
                  = take (Z.to_nat (DialogHistory.max_items h))
                         (DialogHistory.history h)).
  { unfold DialogHistory.load_history. rewrite save_history_file, Hw.
    cbn [exists_ read_file Py.try_except]. by rewrite slice_to_nonneg. }
  split; [exact Hload |].
  intros Hlen. unfold DialogHistory.init. rewrite Hload, take_ge by done.
  by destruct h.
Qed.

Lemma X1_history_save_then_load_witness :
  DialogHistory.init 10
    (DialogHistory.save_history
       (DialogHistory.mk 10 [mkEntry "t2" "B" "c" "deep";
                             mkEntry "t1" "A" "c" "quick"]) world0)
  = DialogHistory.mk 10 [mkEntry "t2" "B" "c" "deep";
                         mkEntry "t1" "A" "c" "quick"].
Proof.
  apply (proj2 (X1_history_save_then_load
                  (DialogHistory.mk 10 [mkEntry "t2" "B" "c" "deep";
                                        mkEntry "t1" "A" "c" "quick"])
                  world0 eq_refl ltac:(simpl; lia))).
  simpl. lia.
Defined.



(** X3. A missing or unreadable history file is replaced by the first
    submission: an object built from such a file starts empty, and with a
    cap of at least 1 and a writable store its first [add_entry] leaves a
    file that holds exactly the new record. *)
Theorem X3_history_bad_file_replaced (cap : Z) (w : World) (r c m : string) :
  0 < cap → history_writable w = true →
  history_file w = Missing ∨ history_file w = Unreadable →
  let e := mkEntry (clock w) r (DialogHistory.stored_context c) m in
  let hw' := DialogHistory.add_entry r c m (DialogHistory.init cap w) w in
  DialogHistory.history (DialogHistory.init cap w) = []
  ∧ DialogHistory.history hw'.1 = [e]
  ∧ history_file hw'.2 = Content [e]
  ∧ DialogHistory.load_history hw'.2 = [e].
Proof.
  intros Hcap Hw Hbad e hw'.
  assert (Hempty : DialogHistory.load_history w = [])
    by (unfold DialogHistory.load_history; by destruct Hbad as [-> | ->]).
  assert (Hone : take (Z.to_nat cap) [e] = [e])
    by (destruct (Z.to_nat cap) as [| n] eqn:Hn; [lia | by destruct n]).
  assert (Hfile : history_file hw'.2 = Content [e]).
  { subst hw'. unfold DialogHistory.add_entry. cbn [snd].
    rewrite save_history_file, Hw.
    cbn [DialogHistory.max_items DialogHistory.history DialogHistory.init].
    rewrite Hempty, !slice_to_nonneg by lia. fold e.
    by rewrite take_idemp, Hone. }
  split; [exact Hempty |]. split; [| split; [exact Hfile |]].
  - subst hw'. rewrite add_entry_history.
    cbn [DialogHistory.max_items DialogHistory.history DialogHistory.init].
    rewrite Hempty, slice_to_nonneg by lia. exact Hone.
  - unfold DialogHistory.load_history. by rewrite Hfile.
Qed.

Lemma X3_history_bad_file_replaced_witness :
  history_file
    (DialogHistory.add_entry "A" "c" "deep"
       (DialogHistory.init 10 (set_history_file Unreadable world0))
       (set_history_file Unreadable world0)).2
  = Content [mkEntry "2025-06-01T12:00:00" "A" "c" "deep"].
Proof.
  apply (X3_history_bad_file_replaced 10 (set_history_file Unreadable world0)
           "A" "c" "deep" ltac:(lia) eq_refl (or_intror eq_refl)).
Defined.

(** X4. [get_recent]: for a count [>= 0] it is the first [count] records
    of the log, fewer when the log is shorter; for a negative count it is
    the log without its last [-count] records; right after an [add_entry]
    (cap and count at least 1) it starts with the new record; and the
    Recent menu of the window is built from the first five records of the
    loaded log. *)
Theorem X4_get_recent_prefix (h : DialogHistory.t) (count : Z) :
  (0 ≤ count →
   DialogHistory.get_recent count h
   = take (Z.to_nat count) (DialogHistory.history h)
   ∧ length (DialogHistory.get_recent count h)
     = Nat.min (Z.to_nat count) (length (DialogHistory.history h)))
  ∧ (count < 0 →
     length (DialogHistory.get_recent count h)
     = (length (DialogHistory.history h) - Z.to_nat (- count))%nat
     ∧ ∃ dropped, DialogHistory.history h
                  = DialogHistory.get_recent count h ++ dropped)
  ∧ (∀ r c m w, 0 < count → 0 < DialogHistory.max_items h →
       head (DialogHistory.get_recent count
               (DialogHistory.add_entry r c m h w).1)
       = Some (mkEntry (clock w) r (DialogHistory.stored_context c) m))
  ∧ (∀ data w,
       Gui.recent_history (Gui.build data w).1
       = take 5 (DialogHistory.load_history w)).
Proof.
  split; [| split; [| split]].
  - intros Hc. unfold DialogHistory.get_recent.
    rewrite slice_to_nonneg by done. split; [done | apply length_take].
  - intros Hc. unfold DialogHistory.get_recent, Py.slice_to.
    destruct (Z.ltb_spec count 0) as [_ | ?]; [| lia].
    split; [rewrite length_take; lia |].
    eexists. symmetry. apply take_drop.
  - intros r c m w Hc Hcap. unfold DialogHistory.get_recent.
    rewrite add_entry_history, !slice_to_nonneg by lia.
    destruct (Z.to_nat count) as [| n] eqn:Hn; [lia |].
    destruct (Z.to_nat (DialogHistory.max_items h)) as [| k] eqn:Hk; [lia |].
    reflexivity.
  - intros data w. reflexivity.
Qed.

Lemma X4_get_recent_prefix_witness :
  DialogHistory.get_recent 1
    (DialogHistory.mk 10 [mkEntry "t2" "B" "c" "deep";
                          mkEntry "t1" "A" "c" "quick"])
  = [mkEntry "t2" "B" "c" "deep"]
  ∧ length (DialogHistory.get_recent (-1)
              (DialogHistory.mk 10 [mkEntry "t2" "B" "c" "deep";
                                    mkEntry "t1" "A" "c" "quick"])) = 1%nat.
Proof.
  split.
  - destruct (proj1 (X4_get_recent_prefix
                       (DialogHistory.mk 10 [mkEntry "t2" "B" "c" "deep";
                                             mkEntry "t1" "A" "c" "quick"])
                       1) ltac:(lia)) as [Heq _].
    exact Heq.
  - destruct (proj1 (proj2 (X4_get_recent_prefix
                              (DialogHistory.mk 10
                                 [mkEntry "t2" "B" "c" "deep";
                                  mkEntry "t1" "A" "c" "quick"])
                              (-1))) ltac:(lia)) as [Hlen _].
    exact Hlen.
Defined.

(** X5. [clear] forgets everything: the log of the object is empty
    whatever it held and whatever the cap, a writable file then holds the
    empty list and loads as the empty log, and the next [add_entry] (cap at
    least 1) leaves the new record alone in the log. *)
Theorem X5_clear_forgets (h : DialogHistory.t) (w : World) :
  DialogHistory.history (DialogHistory.clear h w).1 = []
  ∧ DialogHistory.max_items (DialogHistory.clear h w).1
    = DialogHistory.max_items h
  ∧ (history_writable w = true →
     history_file (DialogHistory.clear h w).2 = Content []
     ∧ DialogHistory.load_history (DialogHistory.clear h w).2 = [])
  ∧ (∀ r c m, 0 < DialogHistory.max_items h →
       DialogHistory.history
         (DialogHistory.add_entry r c m (DialogHistory.clear h w).1
            (DialogHistory.clear h w).2).1
       = [mkEntry (clock w) r (DialogHistory.stored_context c) m]).
Proof.
  assert (Hnil : Py.slice_to (DialogHistory.max_items h) (@nil Entry) = [])
    by (unfold Py.slice_to; destruct (_ <? _); apply take_nil).
  split; [done |]. split; [done |]. split.
  - intros Hw.
    assert (Hfile : history_file (DialogHistory.clear h w).2 = Content []).
    { unfold DialogHistory.clear. cbn [snd].
      rewrite save_history_file, Hw.
      cbn [DialogHistory.max_items DialogHistory.history]. by rewrite Hnil. }
    split; [exact Hfile |].
    unfold DialogHistory.load_history. by rewrite Hfile.
  - intros r c m Hcap.
    assert (Hclock : clock (DialogHistory.clear h w).2 = clock w).
    { unfold DialogHistory.clear, DialogHistory.save_history, write_history.
      cbn [snd]. by destruct (history_writable w). }
    rewrite add_entry_history, Hclock.
    cbn [DialogHistory.clear fst DialogHistory.max_items
         DialogHistory.history].
    rewrite slice_to_nonneg by lia.
    destruct (Z.to_nat (DialogHistory.max_items h)) as [| n] eqn:Hn; [lia |].
    by destruct n.
Qed.

Lemma X5_clear_forgets_witness :
  DialogHistory.load_history
    (DialogHistory.clear
       (DialogHistory.mk 10 [mkEntry "t1" "A" "c" "quick"]) world0).2 = [].
Proof.
  apply (proj1 (proj2 (proj2 (X5_clear_forgets
                                (DialogHistory.mk 10
                                   [mkEntry "t1" "A" "c" "quick"]) world0)))
           eq_refl).
Defined.

(** ** dialog.py: what a run prints *)

Lemma mainloop_output_shape data events (w : World) :
  output_shape (stdout w) (Gui.mainloop events (Gui.build data w)).
Proof.
  apply mainloop_inv.
  - intros ev sw. apply step_output_shape.
  - split.
    + apply known_modes_modes, load_saved_mode_known.
    + left. split; [done |]. apply build_frame.
Qed.

Lemma mainloop_pref_in_sync data events (w : World) :
  pref_writable w = true →
  pref_in_sync (Gui.mainloop events (Gui.build data w)).
Proof.
  intros Hw.
  apply (mainloop_inv (λ sw, pref_writable sw.2 = true ∧ pref_in_sync sw)).
  - intros ev [st1 w1] [Hw1 Hs]. split; [| by apply step_pref_in_sync].
    destruct (step_env ev st1 w1) as (-> & _). exact Hw1.
  - split.
    + destruct (build_frame data w) as ((-> & _) & _). exact Hw.
    + unfold pref_in_sync, Gui.build. cbn [fst snd].
      by rewrite update_mode_indicator_pref, Hw.
Qed.

(** What no event changes: the options and the Recent list. *)
Lemma mainloop_static evs (sw : Gui.state * World) :
  Gui.opts (Gui.mainloop evs sw).1 = Gui.opts sw.1
  ∧ Gui.recent_history (Gui.mainloop evs sw).1 = Gui.recent_history sw.1.
Proof.
  apply (mainloop_inv (λ sw', Gui.opts sw'.1 = Gui.opts sw.1
                              ∧ Gui.recent_history sw'.1
                                = Gui.recent_history sw.1)); [| done].
  intros ev [st w] [Ho Hr]. unfold Gui.step.
  destruct (Gui.running st); [| done].
  destruct ev; cbn [fst snd];
    repeat match goal with |- context [?l !! ?i] => destruct (l !! i) end;
    try done.
  unfold Gui.submit.
  by destruct (Py.truthy (Gui.var_result st)
               && negb (bool_decide (Gui.var_result st = CANCELLED))).
Qed.

Lemma keeps_response_idle ev : keeps_response ev = true → idle ev = true.
Proof. by destruct ev. Qed.

Lemma forallb_keeps_response_idle evs :
  forallb keeps_response evs = true → forallb idle evs = true.
Proof.
  intros H. apply forallb_forall. intros ev Hev.
  apply keeps_response_idle. by eapply forallb_forall in H.
Qed.

Lemma mainloop_keeps_response evs (sw : Gui.state * World) :
  forallb keeps_response evs = true →
  Gui.var_result (Gui.mainloop evs sw).1 = Gui.var_result sw.1.
Proof.
  revert sw. induction evs as [| ev evs IH]; intros [st w] Hevs; [done |].
  simpl in Hevs. apply andb_prop in Hevs as [Hev Hevs].
  change (Gui.mainloop (ev :: evs) (st, w))
    with (Gui.mainloop evs (Gui.step ev (st, w))).
  rewrite IH by done. unfold Gui.step. destruct (Gui.running st); [| done].
  destruct ev; try discriminate. cbn [fst].
  by destruct (Gui.modes !! i).
Qed.

Lemma list_ascii_app (s t : string) :
  list_ascii_of_string (s +:+ t)
  = list_ascii_of_string s ++ list_ascii_of_string t.
Proof. induction s as [| c s IH]; simpl; [done | by rewrite IH]. Qed.

Lemma list_ascii_inj (s t : string) :
  list_ascii_of_string s = list_ascii_of_string t → s = t.
Proof.
  intros H. rewrite <- (string_of_list_ascii_of_string s),
    <- (string_of_list_ascii_of_string t). by rewrite H.
Qed.

Lemma encode_not_token (r m : string) : encode r m ≠ CANCELLED.
Proof.
  intros H. apply (f_equal list_ascii_of_string) in H.
  unfold encode, SEP in H. rewrite !list_ascii_app in H.
  assert (Hbar : "|"%char ∈ list_ascii_of_string CANCELLED).
  { rewrite <- H. apply elem_of_app. right. apply elem_of_app. left.
    simpl. apply elem_of_cons. by left. }
  revert Hbar. apply (bool_decide_eq_false_1 _). vm_compute. reflexivity.
Qed.

(** X6. A run of the window calls [print] at most once: not at all while
    the window is open, and once Submit or Cancel has closed it every later
    event is ignored, so that pressing Submit twice prints one result. (A
    response that holds a newline makes that one call span two lines.) *)
Theorem X6_one_print_per_run :
  (∀ json_loads prog arg more events (w : World),
     (length (stdout (Gui.main json_loads (prog :: arg :: more) events w).1)
      ≤ length (stdout w) + 1)%nat)
  ∧ (∀ json_loads prog arg more events (w : World),
       (Gui.main json_loads (prog :: arg :: more) events w).2 = Waiting →
       stdout (Gui.main json_loads (prog :: arg :: more) events w).1
       = stdout w)
  ∧ (∀ json_loads prog arg more data evs ev rest (w : World),
       json_loads arg = Some data → forallb idle evs = true →
       idle ev = false →
       Gui.main json_loads (prog :: arg :: more) (evs ++ ev :: rest) w
       = Gui.main json_loads (prog :: arg :: more) (evs ++ [ev]) w).
Proof.
  split; [| split].
  - intros json_loads prog arg more events w.
    unfold Gui.main, Gui.show_dialog.
    destruct (json_loads arg) as [data |]; [| cbn [fst]; lia].
    cbn [mret res_ret].
    destruct (mainloop_output_shape data events w) as [_ Hout].
    destruct (Gui.mainloop events (Gui.build data w)) as [st1 w1].
    cbn [fst snd] in *.
    destruct Hout as [[_ ->] | [[_ ->] | [_ (r & m & _ & ->)]]];
      rewrite ?length_app; simpl; lia.
  - intros json_loads prog arg more events w.
    unfold Gui.main, Gui.show_dialog.
    destruct (json_loads arg) as [data |]; [| discriminate].
    cbn [mret res_ret].
    destruct (mainloop_output_shape data events w) as [_ Hout].
    destruct (Gui.mainloop events (Gui.build data w)) as [st1 w1].
    cbn [fst snd] in *.
    destruct (Gui.running st1); [| discriminate]. intros _.
    by destruct Hout as [[_ ->] | [[? _] | [? _]]].
  - intros json_loads prog arg more data evs ev rest w Hjson Hevs Hev.
    by rewrite !(main_session json_loads prog arg more data evs ev).
Qed.

Lemma X6_one_print_per_run_witness :
  Gui.main json0 ("dialog.py" :: "{}" :: [])
    ([Gui.EditResponse "yes"] ++ Gui.Submit :: [Gui.Submit; Gui.Cancel])
    world0
  = Gui.main json0 ("dialog.py" :: "{}" :: [])
      ([Gui.EditResponse "yes"] ++ [Gui.Submit]) world0.
Proof.
  apply (proj2 (proj2 X6_one_print_per_run) json0 "dialog.py" "{}" []
           request0 [Gui.EditResponse "yes"] Gui.Submit
           [Gui.Submit; Gui.Cancel] world0); reflexivity.
Defined.

(** X7. The two outcomes of the window can always be told apart: no
    response and mode encode to the bare token [CANCELLED], so a run
    prints exactly [CANCELLED] if and only if it was closed by Cancel, even
    when the response submitted is the text [CANCELLED] itself. *)
Theorem X7_cancel_token_only_on_cancel :
  (∀ r m, encode r m ≠ CANCELLED)
  ∧ (∀ json_loads prog arg more data evs ev rest (w : World),
       json_loads arg = Some data → forallb idle evs = true →
       idle ev = false →
       stdout (Gui.main json_loads (prog :: arg :: more)
                 (evs ++ ev :: rest) w).1
       = stdout w ++ ["CANCELLED"]
       ↔ ev = Gui.Cancel).
Proof.
  split; [exact encode_not_token |].
  intros json_loads prog arg more data evs ev rest w Hjson Hevs Hev.
  destruct ev; try discriminate.
  - destruct (gui_submit_line json_loads prog arg more data evs rest w
                Hjson Hevs) as [Hout _].
    split; [| discriminate]. rewrite Hout. intros Heq.
    apply app_inv_head in Heq. injection Heq as Heq.
    destruct (encode_not_token _ _ Heq).
  - split; [done | intros _].
    rewrite (main_session json_loads prog arg more data evs Gui.Cancel rest w)
      by done.
    destruct (mainloop_idle evs _ Hevs (build_running data w))
      as (Hr & _ & _ & _ & Ho).
    destruct (build_frame data w) as (_ & _ & Ho').
    destruct (Gui.mainloop evs (Gui.build data w)) as [st1 w1].
    cbn [fst snd] in *. unfold Gui.step. rewrite Hr.
    cbn [snd Gui.cancel print stdout]. unfold CANCELLED. congruence.
Qed.

Lemma X7_cancel_token_witness :
  stdout (Gui.main json0 ("dialog.py" :: "{}" :: [])
            ([Gui.EditResponse "CANCELLED"] ++ Gui.Submit :: []) world0).1
  ≠ stdout world0 ++ ["CANCELLED"].
Proof.
  intros H.
  apply (proj2 X7_cancel_token_only_on_cancel json0 "dialog.py" "{}" []
           request0 [Gui.EditResponse "CANCELLED"] Gui.Submit [] world0
           eq_refl eq_refl eq_refl) in H.
  discriminate H.
Defined.

Lemma str_app_inv_tail (r r' s : string) : r +:+ s = r' +:+ s → r = r'.
Proof.
  intros H. apply list_ascii_inj.
  apply (f_equal list_ascii_of_string) in H. rewrite !list_ascii_app in H.
  by apply app_inv_tail in H.
Qed.

Lemma encode_last (r m : string) :
  last (list_ascii_of_string (encode r m))
  = match last (list_ascii_of_string m) with
    | Some c => Some c
    | None => Some "|"%char
    end.
Proof.
  unfold encode, SEP. rewrite !list_ascii_app, !last_app.
  by destruct (last (list_ascii_of_string m)).
Qed.

(** X8. The line printed by a submission determines both of its parts:
    for modes among the four, two lines are equal only when the responses
    are equal and the modes are equal, also when a response contains the
    separator itself. *)
Theorem X8_encoded_line_determines_outcome (r m r' m' : string) :
  m ∈ ["quick"; "normal"; "deep"; "ultra"] →
  m' ∈ ["quick"; "normal"; "deep"; "ultra"] →
  encode r m = encode r' m' → r = r' ∧ m = m'.
Proof.
  intros Hm Hm' Heq.
  assert (Hmm : m = m').
  { pose proof (f_equal (λ s, last (list_ascii_of_string s)) Heq) as Hlast.
    cbn beta in Hlast. rewrite !encode_last in Hlast.
    rewrite !elem_of_cons, elem_of_nil in Hm, Hm'.
    destruct Hm as [-> | [-> | [-> | [-> | []]]]],
             Hm' as [-> | [-> | [-> | [-> | []]]]];
      try reflexivity; discriminate Hlast. }
  subst m'. split; [| done].
  unfold encode in Heq. by apply str_app_inv_tail in Heq.
Qed.

Lemma X8_encoded_line_witness :
  "a|||quick" = "a|||quick" ∧ "deep" = "deep".
Proof.
  assert (Hd : "deep" ∈ ["quick"; "normal"; "deep"; "ultra"])
    by (apply (bool_decide_unpack _); vm_compute; exact I).
  exact (X8_encoded_line_determines_outcome "a|||quick" "deep" "a|||quick"
           "deep" Hd Hd eq_refl).
Defined.

(** X9. The default action is the response unless the user changes it:
    when only the mode is changed before Submit, the line printed is the
    request's [default_action], the separator and the mode then shown; a
    Submit right away prints the default action with the mode loaded from
    the preference file. *)
Theorem X9_default_action_submitted :
  (∀ json_loads prog arg more data evs rest (w : World),
     json_loads arg = Some data → forallb keeps_response evs = true →
     stdout (Gui.main json_loads (prog :: arg :: more)
               (evs ++ Gui.Submit :: rest) w).1
     = stdout w
       ++ [default_action data +:+ "|||"
           +:+ Gui.var_thinking_mode
                 (Gui.mainloop evs (Gui.build data w)).1])
  ∧ (∀ json_loads prog arg more data rest (w : World),
       json_loads arg = Some data →
       stdout (Gui.main json_loads (prog :: arg :: more)
                 (Gui.Submit :: rest) w).1
       = stdout w
         ++ [default_action data +:+ "|||" +:+ Gui.load_saved_mode w]).
Proof.
  assert (Hgen : ∀ json_loads prog arg more data evs rest (w : World),
            json_loads arg = Some data → forallb keeps_response evs = true →
            stdout (Gui.main json_loads (prog :: arg :: more)
                      (evs ++ Gui.Submit :: rest) w).1
            = stdout w
              ++ [default_action data +:+ "|||"
                  +:+ Gui.var_thinking_mode
                        (Gui.mainloop evs (Gui.build data w)).1]).
  { intros json_loads prog arg more data evs rest w Hjson Hevs.
    destruct (gui_submit_line json_loads prog arg more data evs rest w Hjson
                (forallb_keeps_response_idle evs Hevs)) as [Hout _].
    rewrite Hout. by rewrite mainloop_keeps_response. }
  split; [exact Hgen |].
  intros json_loads prog arg more data rest w Hjson.
  apply (Hgen json_loads prog arg more data [] rest w Hjson eq_refl).
Qed.

Lemma X9_default_action_witness :
  stdout (Gui.main json0 ("dialog.py" :: "{}" :: [])
            ([Gui.SelectMode 2] ++ Gui.Submit :: []) world0).1
  = stdout world0 ++ ["proceed" +:+ "|||" +:+ "deep"].
Proof.
  apply (proj1 X9_default_action_submitted json0 "dialog.py" "{}" []
           request0 [Gui.SelectMode 2] [] world0); reflexivity.
Defined.

(** X10. The preference carries over from one run to the next: on a
    preference file that can be written, whatever the file held before and
    whatever the events, the file holds one of the four modes after the
    window was built, namely the mode shown; both loaders return it, and a
    window built next starts with it. *)
Theorem X10_preference_carries_over (data : DecisionRequest) events
    (w : World) :
  pref_writable w = true →
  let sw := Gui.mainloop events (Gui.build data w) in
  Gui.var_thinking_mode sw.1 ∈ ["quick"; "normal"; "deep"; "ultra"]
  ∧ pref_file sw.2 = Content (Gui.var_thinking_mode sw.1)
  ∧ Gui.load_saved_mode sw.2 = Gui.var_thinking_mode sw.1
  ∧ Web.load_saved_mode sw.2 = Gui.var_thinking_mode sw.1
  ∧ (∀ data', Gui.var_thinking_mode (Gui.build data' sw.2).1
              = Gui.var_thinking_mode sw.1).
Proof.
  intros Hw sw.
  destruct (mainloop_output_shape data events w) as [Hmode _].
  pose proof (mainloop_pref_in_sync data events w Hw) as Hsync.
  fold sw in Hmode, Hsync. unfold pref_in_sync in Hsync.
  assert (Hload : Gui.load_saved_mode sw.2 = Gui.var_thinking_mode sw.1).
  { rewrite (load_content _ _ Hsync).
    rewrite strip_mode by (by apply known_modes_modes).
    rewrite bool_decide_eq_true_2; [done | by apply known_modes_modes]. }
  repeat split; try done.
Qed.

Lemma X10_preference_carries_over_witness :
  Gui.var_thinking_mode
    (Gui.build request0
       (Gui.mainloop [Gui.SelectMode 3; Gui.Cancel]
          (Gui.build request0
             (set_pref_file (Content "bogus") world0))).2).1
  = "ultra".
Proof.
  destruct (X10_preference_carries_over request0
              [Gui.SelectMode 3; Gui.Cancel]
              (set_pref_file (Content "bogus") world0) eq_refl)
    as (_ & _ & _ & _ & Hnext).
  exact (Hnext request0).
Defined.

(** ** dialog.py: the preference text, the options, the indicator *)

Lemma all_space_app (a b : string) :
  all_space (a +:+ b) = all_space a && all_space b.
Proof. unfold all_space. by rewrite list_ascii_app, forallb_app. Qed.

Lemma lstrip_spaces (ws s : string) :
  all_space ws = true → Py.lstrip (ws +:+ s) = Py.lstrip s.
Proof.
  induction ws as [| c ws IH]; [done |].
  unfold all_space. simpl. intros [Hc Hws]%andb_prop.
  rewrite Hc. by apply IH.
Qed.

Lemma lstrip_all_space (ws : string) :
  all_space ws = true → Py.lstrip ws = "".
Proof.
  induction ws as [| c ws IH]; [done |].
  unfold all_space. simpl. intros [Hc Hws]%andb_prop.
  rewrite Hc. by apply IH.
Qed.

Lemma str_rev_app (a b : string) :
  Py.str_rev (a +:+ b) = Py.str_rev b +:+ Py.str_rev a.
Proof.
  induction a as [| c a IH]; simpl.
  - apply list_ascii_inj. by rewrite list_ascii_app, app_nil_r.
  - rewrite IH. apply list_ascii_inj.
    by rewrite !list_ascii_app, app_assoc.
Qed.

Lemma all_space_rev (ws : string) :
  all_space (Py.str_rev ws) = all_space ws.
Proof.
  induction ws as [| c ws IH]; [done |].
  simpl. rewrite all_space_app, IH. unfold all_space. simpl.
  rewrite andb_true_r. apply andb_comm.
Qed.

Lemma strip_padded_mode (ws ws' m : string) :
  all_space ws = true → all_space ws' = true → m ∈ known_modes →
  Py.strip (ws +:+ m +:+ ws') = m.
Proof.
  intros Hws Hws' Hm. unfold Py.strip, Py.rstrip.
  rewrite lstrip_spaces by done.
  assert (Hrev : all_space (Py.str_rev ws') = true)
    by (by rewrite all_space_rev).
  unfold known_modes in Hm. rewrite !elem_of_cons, elem_of_nil in Hm.
  assert (Hkeep : Py.lstrip (m +:+ ws') = m +:+ ws'
                  ∧ Py.str_rev (Py.lstrip (Py.str_rev m)) = m).
  { by destruct Hm as [-> | [-> | [-> | [-> | []]]]]. }
  destruct Hkeep as [-> Hback].
  by rewrite str_rev_app, lstrip_spaces.
Qed.

(** X11. White space around the stored mode is ignored: a preference file
    holding one of the four modes with any white space before and after it
    (a trailing newline, say) loads as that mode in both loaders, and a
    file holding nothing but white space loads as [normal]. *)
Theorem X11_preference_text_is_stripped (w : World) (ws ws' : string) :
  all_space ws = true → all_space ws' = true →
  (∀ m, m ∈ ["quick"; "normal"; "deep"; "ultra"] →
     pref_file w = Content (ws +:+ m +:+ ws') →
     Gui.load_saved_mode w = m ∧ Web.load_saved_mode w = m)
  ∧ (pref_file w = Content ws →
     Gui.load_saved_mode w = "normal" ∧ Web.load_saved_mode w = "normal").
Proof.
  intros Hws Hws'. change Web.load_saved_mode with Gui.load_saved_mode.
  split.
  - intros m Hm Hfile. apply known_modes_modes in Hm.
    rewrite (load_content _ _ Hfile), strip_padded_mode by done.
    by rewrite bool_decide_eq_true_2.
  - intros Hfile. rewrite (load_content _ _ Hfile).
    unfold Py.strip, Py.rstrip. rewrite (lstrip_all_space ws) by done.
    done.
Qed.

Lemma X11_preference_text_witness :
  Gui.load_saved_mode
    (set_pref_file (Content (" " +:+ "deep" +:+ String "010" "")) world0)
  = "deep".
Proof.
  assert (Hd : "deep" ∈ ["quick"; "normal"; "deep"; "ultra"])
    by (apply (bool_decide_unpack _); vm_compute; exact I).
  apply (proj1 (X11_preference_text_is_stripped
                  (set_pref_file
                     (Content (" " +:+ "deep" +:+ String "010" "")) world0)
                  " " (String "010" "") eq_refl eq_refl) "deep" Hd eq_refl).
Defined.

(** An event that sets the response field to [v] on an open window, then
    events that only change the mode, then Submit: the line printed. *)
Lemma gui_set_then_submit json_loads prog arg more data evs ev v evs' rest
    (w : World) :
  json_loads arg = Some data → forallb idle evs = true → idle ev = true →
  (∀ st w1, Gui.running st = true →
            Gui.opts st = options data →
            Gui.recent_history st = take 5 (DialogHistory.load_history w) →
            Gui.var_result (Gui.step ev (st, w1)).1 = v) →
  forallb keeps_response evs' = true →
  stdout (Gui.main json_loads (prog :: arg :: more)
            (evs ++ ev :: evs' ++ Gui.Submit :: rest) w).1
  = stdout w
    ++ [v +:+ "|||"
        +:+ Gui.var_thinking_mode
              (Gui.mainloop (evs ++ ev :: evs') (Gui.build data w)).1].
Proof.
  intros Hjson Hevs Hev Hset Hevs'.
  assert (Hidle : forallb idle (evs ++ ev :: evs') = true).
  { rewrite forallb_app, Hevs. cbn [forallb andb]. rewrite Hev.
    by apply forallb_keeps_response_idle. }
  replace (evs ++ ev :: evs' ++ Gui.Submit :: rest)
    with ((evs ++ ev :: evs') ++ Gui.Submit :: rest)
    by (by rewrite <- app_assoc).
  destruct (gui_submit_line json_loads prog arg more data _ rest w Hjson
              Hidle) as [-> _].
  do 3 f_equal.
  replace (evs ++ ev :: evs') with ((evs ++ [ev]) ++ evs')
    by (by rewrite <- app_assoc).
  rewrite mainloop_app, mainloop_keeps_response by done.
  rewrite mainloop_app.
  destruct (mainloop_idle evs _ Hevs (build_running data w)) as (Hr & _).
  destruct (mainloop_static evs (Gui.build data w)) as [Ho Hh].
  destruct (Gui.mainloop evs (Gui.build data w)) as [st1 w1].
  change (Gui.mainloop [ev] (st1, w1)) with (Gui.step ev (st1, w1)).
  by apply Hset.
Qed.

(** X12. Picking an option makes it the response: with option [i] of the
    request picked on an open window and only mode changes after it,
    Submit prints that option's text, the separator and the mode shown;
    picking an index the request has no option for changes nothing. *)
Theorem X12_picked_option_is_submitted :
  (∀ json_loads prog arg more data evs i v evs' rest (w : World),
     json_loads arg = Some data → forallb idle evs = true →
     options data !! i = Some v → forallb keeps_response evs' = true →
     stdout (Gui.main json_loads (prog :: arg :: more)
               (evs ++ Gui.PickOption i :: evs' ++ Gui.Submit :: rest) w).1
     = stdout w
       ++ [v +:+ "|||"
           +:+ Gui.var_thinking_mode
                 (Gui.mainloop (evs ++ Gui.PickOption i :: evs')
                               (Gui.build data w)).1])
  ∧ (∀ data evs i (w : World), options data !! i = None →
       Gui.mainloop (evs ++ [Gui.PickOption i]) (Gui.build data w)
       = Gui.mainloop evs (Gui.build data w)).
Proof.
  split.
  - intros json_loads prog arg more data evs i v evs' rest w Hjson Hevs Hi
      Hevs'.
    apply gui_set_then_submit; try done.
    intros st w1 Hrun Hopts _. unfold Gui.step. by rewrite Hrun, Hopts, Hi.
  - intros data evs i w Hi. rewrite mainloop_app.
    destruct (mainloop_static evs (Gui.build data w)) as [Ho _].
    destruct (Gui.mainloop evs (Gui.build data w)) as [st1 w1].
    change (Gui.mainloop [Gui.PickOption i] (st1, w1))
      with (Gui.step (Gui.PickOption i) (st1, w1)).
    unfold Gui.step. cbn [fst] in Ho.
    change (Gui.opts (Gui.build data w).1) with (options data) in Ho.
    rewrite Ho, Hi. by destruct (Gui.running st1).
Qed.

Lemma X12_picked_option_witness :
  stdout (Gui.main json0 ("dialog.py" :: "{}" :: [])
            ([] ++ Gui.PickOption 0 :: [Gui.SelectMode 0]
             ++ Gui.Submit :: []) world0).1
  = stdout world0 ++ ["A" +:+ "|||" +:+ "quick"].
Proof.
  apply (proj1 X12_picked_option_is_submitted json0 "dialog.py" "{}" []
           request0 [] 0%nat "A" [Gui.SelectMode 0] [] world0); reflexivity.
Defined.

(** X13. The indicator follows the selection: at every moment of a run
    the label reads one of [Quick Mode], [Normal Mode], [Deep Mode],
    [Ultra Mode] in brackets (the fallback of the lookup is never used),
    and of the four frames exactly one, that of the mode shown, has the
    accent border. *)
Theorem X13_indicator_follows_selection (data : DecisionRequest) events
    (w : World) :
  let mode := Gui.var_thinking_mode
                (Gui.mainloop events (Gui.build data w)).1 in
  GuiView.indicator_text mode
  ∈ ["[Quick Mode]"; "[Normal Mode]"; "[Deep Mode]"; "[Ultra Mode]"]
  ∧ GuiView.mode_text mode ≠ mode
  ∧ length (GuiView.frame_borders mode) = 4%nat
  ∧ filter (λ vf, vf.2 = GuiView.accent3_color) (GuiView.frame_borders mode)
    = [(mode, GuiView.accent3_color)].
Proof.
  intros mode.
  destruct (mainloop_output_shape data events w) as [Hmode _].
  fold mode in Hmode. clearbody mode.
  unfold Gui.modes in Hmode. rewrite !elem_of_cons, elem_of_nil in Hmode.
  destruct Hmode as [-> | [-> | [-> | [-> | []]]]];
    (split; [apply (bool_decide_unpack _); vm_compute; exact I |]);
    (split; [vm_compute; discriminate |]);
    (split; [reflexivity | vm_compute; reflexivity]).
Qed.

(** X14. The Recent menu: it offers at most five items, in the order of
    the loaded log; the label of an item is the response itself when that
    has at most 40 characters and its first 40 characters followed by
    [...] otherwise; choosing an item puts the whole response in the
    field, so that Submit prints it in full. *)
Theorem X14_recent_menu :
  (∀ data events (w : World),
     let st := (Gui.mainloop events (Gui.build data w)).1 in
     (length (GuiView.history_menu st) ≤ 5)%nat
     ∧ GuiView.history_menu st
       = (λ item, (GuiView.menu_label item, response item))
           <$> take 5 (DialogHistory.load_history w))
  ∧ (∀ item,
       (String.length (GuiView.menu_label item) ≤ 43)%nat
       ∧ ((String.length (response item) ≤ 40)%nat →
          GuiView.menu_label item = response item)
       ∧ ((40 < String.length (response item))%nat →
          GuiView.menu_label item = Py.str_take 40 (response item) +:+ "..."))
  ∧ (∀ json_loads prog arg more data evs i item evs' rest (w : World),
       json_loads arg = Some data → forallb idle evs = true →
       take 5 (DialogHistory.load_history w) !! i = Some item →
       forallb keeps_response evs' = true →
       stdout (Gui.main json_loads (prog :: arg :: more)
                 (evs ++ Gui.PickHistory i :: evs' ++ Gui.Submit :: rest) w).1
       = stdout w
         ++ [response item +:+ "|||"
             +:+ Gui.var_thinking_mode
                   (Gui.mainloop (evs ++ Gui.PickHistory i :: evs')
                                 (Gui.build data w)).1]).
Proof.
  split; [| split].
  - intros data events w st. subst st. unfold GuiView.history_menu.
    destruct (mainloop_static events (Gui.build data w)) as [_ ->].
    change (Gui.recent_history (Gui.build data w).1)
      with (take 5 (DialogHistory.load_history w)).
    split; [| done]. rewrite length_fmap, length_take. lia.
  - intros item. unfold GuiView.menu_label.
    destruct (Nat.ltb_spec 40 (String.length (response item))) as [Hl | Hs].
    + split; [| split; [lia | done]].
      rewrite str_app_length, str_take_length by lia. simpl. lia.
    + split; [lia |]. split; [done | lia].
  - intros json_loads prog arg more data evs i item evs' rest w Hjson Hevs Hi
      Hevs'.
    apply gui_set_then_submit; try done.
    intros st w1 Hrun _ Hrec. unfold Gui.step. by rewrite Hrun, Hrec, Hi.
Qed.

Lemma X14_recent_menu_witness :
  stdout (Gui.main json0 ("dialog.py" :: "{}" :: [])
            ([] ++ Gui.PickHistory 0 :: [] ++ Gui.Submit :: [])
            (set_history_file
               (Content [mkEntry "t1" "use the cache" "c" "quick"])
               world0)).1
  = [] ++ ["use the cache" +:+ "|||" +:+ "normal"].
Proof.
  apply (proj2 (proj2 X14_recent_menu) json0 "dialog.py" "{}" [] request0
           [] 0%nat (mkEntry "t1" "use the cache" "c" "quick") [] []
           (set_history_file
              (Content [mkEntry "t1" "use the cache" "c" "quick"]) world0));
    reflexivity.
Defined.

(** ** dialog-web.py: the requests *)

Lemma do_GET_passed_over json_loads argv req (g : Web.globals) (w : World) :
  closing req = false →
  (∃ e, Web.do_GET json_loads argv req g w = Py.Raise e)
  ∨ Web.do_GET json_loads argv req g w
    = Py.Ret (Web.mkHandled w g None false).
Proof.
  unfold closing, Web.do_GET. intros Hc.
  case_bool_decide as Hroot.
  - left. destruct (json_loads _); eauto.
  - cbn [negb andb] in Hc. apply orb_false_elim in Hc as [-> Hcancel].
    apply bool_decide_eq_false_1 in Hcancel.
    right. by rewrite bool_decide_eq_false_2.
Qed.

Lemma serve_forever_passes_over json_loads argv pre reqs (g : Web.globals)
    (w : World) :
  forallb (λ req, negb (closing req)) pre = true →
  Web.serve_forever json_loads argv (pre ++ reqs) g w
  = Web.serve_forever json_loads argv reqs g w.
Proof.
  induction pre as [| req pre IH]; [done |].
  cbn [forallb]. intros [Hreq Hpre]%andb_prop.
  apply negb_true_iff in Hreq.
  cbn [app Web.serve_forever].
  destruct (do_GET_passed_over json_loads argv req g w Hreq)
    as [[e ->] | ->]; by apply IH.
Qed.

(** X15. Requests the listener passes over: a request that is neither
    [/cancel] exactly nor a path beginning with [/submit] changes nothing
    and does not stop the server; that holds for [/], whose handler always
    raises before a page is written, and for [/cancel] followed by
    anything. Such requests in front of others are as if they had not
    come, and with nothing but such requests the process keeps waiting and
    has printed and written nothing. *)
Theorem X15_requests_passed_over json_loads argv :
  (∀ req (g : Web.globals) (w : World), closing req = false →
     (∃ e, Web.do_GET json_loads argv req g w = Py.Raise e)
     ∨ Web.do_GET json_loads argv req g w
       = Py.Ret (Web.mkHandled w g None false))
  ∧ (∀ req (g : Web.globals) (w : World), Web.path req = "/" →
       closing req = false
       ∧ ∃ e, Web.do_GET json_loads argv req g w = Py.Raise e)
  ∧ (∀ req s, Web.path req = "/cancel" +:+ s → s ≠ "" →
       closing req = false)
  ∧ (∀ pre reqs (g : Web.globals) (w : World),
       forallb (λ req, negb (closing req)) pre = true →
       Web.serve_forever json_loads argv (pre ++ reqs) g w
       = Web.serve_forever json_loads argv reqs g w)
  ∧ (∀ b reqs (w : World), (1 < length argv)%nat →
       forallb (λ req, negb (closing req)) reqs = true →
       Web.main json_loads b argv reqs w = (w, Waiting)).
Proof.
  split; [| split; [| split; [| split]]].
  - intros req g w. apply do_GET_passed_over.
  - intros req g w Hpath. split.
    + unfold closing. by rewrite Hpath.
    + unfold Web.do_GET. rewrite Hpath. cbn [bool_decide decide_rel].
      rewrite bool_decide_eq_true_2 by done.
      destruct (json_loads _); eauto.
  - intros req s Hpath Hs. unfold closing. rewrite Hpath.
    destruct s as [| c s]; [done |].
    assert (H1 : "/cancel" +:+ String c s ≠ "/") by (simpl; discriminate).
    assert (H2 : "/cancel" +:+ String c s ≠ "/cancel").
    { intros H. apply (f_equal String.length) in H.
      rewrite str_app_length in H. simpl in H. lia. }
    rewrite (bool_decide_eq_false_2 _ H1), (bool_decide_eq_false_2 _ H2).
    reflexivity.
  - intros pre reqs g w. apply serve_forever_passes_over.
  - intros b reqs w Hlen Hreqs. unfold Web.main, Web.show_web_dialog.
    destruct (Z.ltb_spec 1 (Z.of_nat (length argv))) as [_ | ?]; [| lia].
    rewrite <- (app_nil_r reqs), serve_forever_passes_over by done.
    reflexivity.
Qed.

Lemma X15_requests_passed_over_witness :
  Web.main json0 true argv0
    [Web.mkReq "/" ∅; Web.mkReq "/favicon.ico" ∅; Web.mkReq "/cancel?x=1" ∅]
    world0
  = (world0, Waiting).
Proof.
  apply (proj2 (proj2 (proj2 (proj2 (X15_requests_passed_over json0 argv0))))
           true _ world0); [simpl; lia | vm_compute; reflexivity].
Defined.

(** X16. The parameters of a [/submit] request: any path that begins with
    [/submit] is handled as a submission; of several values of a parameter
    the first is used; a missing [response] counts as the empty text and a
    missing [mode] as [normal], so that a bare [/submit] builds the line
    [|||normal] and saves [normal] as the preference. *)
Theorem X16_submit_parameters json_loads argv req (g : Web.globals)
    (w : World) :
  Py.startswith (Web.path req) "/submit" = true →
  let r := match Web.query req !! "response" with
           | Some (v :: _) => v
           | _ => ""
           end in
  let m := match Web.query req !! "mode" with
           | Some (v :: _) => v
           | _ => "normal"
           end in
  Web.query req !! "response" ≠ Some [] →
  Web.query req !! "mode" ≠ Some [] →
  Web.do_GET json_loads argv req g w
  = Py.Ret (Web.mkHandled (Py.try_except (write_pref m w) w) g
              (Some (r +:+ "|||" +:+ m)) true)
  ∧ (Web.query req = ∅ →
     Web.do_GET json_loads argv req g w
     = Py.Ret (Web.mkHandled (Py.try_except (write_pref "normal" w) w) g
                 (Some "|||normal") true)).
Proof.
  intros Hpath r m Hr Hm.
  assert (Hgen : Web.do_GET json_loads argv req g w
                 = Py.Ret (Web.mkHandled (Py.try_except (write_pref m w) w) g
                             (Some (r +:+ "|||" +:+ m)) true)).
  { apply do_GET_submit; [done | |]; unfold Web.query_get0.
    - subst r. by destruct (Web.query req !! "response") as [[| v vs] |].
    - subst m. by destruct (Web.query req !! "mode") as [[| v vs] |]. }
  split; [exact Hgen |].
  intros Hq. rewrite Hgen. subst r m. by rewrite Hq, !lookup_empty.
Qed.

Lemma X16_submit_parameters_witness :
  Web.do_GET json0 argv0
    (Web.mkReq "/submitted?mode=deep&mode=quick"
               {[ "mode" := ["deep"; "quick"] ]})
    (Web.mkGlobals None) world0
  = Py.Ret (Web.mkHandled (set_pref_file (Content "deep") world0)
              (Web.mkGlobals None) (Some "|||deep") true).
Proof.
  assert (Hr : Web.query (Web.mkReq "/submitted?mode=deep&mode=quick"
                            {[ "mode" := ["deep"; "quick"] ]})
               !! "response" ≠ Some [])
    by (vm_compute; discriminate).
  assert (Hm : Web.query (Web.mkReq "/submitted?mode=deep&mode=quick"
                            {[ "mode" := ["deep"; "quick"] ]})
               !! "mode" ≠ Some [])
    by (vm_compute; discriminate).
  destruct (X16_submit_parameters json0 argv0
              (Web.mkReq "/submitted?mode=deep&mode=quick"
                         {[ "mode" := ["deep"; "quick"] ]})
              (Web.mkGlobals None) world0 eq_refl Hr Hm) as [H _].
  rewrite H. vm_compute. reflexivity.
Defined.

(** X17. The first closing request decides the session: after requests
    that are passed over, a [/cancel] stops the server with every file as
    it was (the preference is not saved), a [/submit] stops it with the
    preference file rewritten to the mode it carries when that file can be
    written and nothing else changed; requests that come later are never
    handled. *)
Theorem X17_first_closing_request_decides json_loads argv pre req rest
    (g : Web.globals) (w : World) :
  forallb (λ req, negb (closing req)) pre = true →
  (Web.path req = "/cancel" →
   Web.serve_forever json_loads argv (pre ++ req :: rest) g w = (g, w, true))
  ∧ (∀ r m, Py.startswith (Web.path req) "/submit" = true →
       Web.query_get0 (Web.query req) "response" "" = Py.Ret r →
       Web.query_get0 (Web.query req) "mode" "normal" = Py.Ret m →
       Web.serve_forever json_loads argv (pre ++ req :: rest) g w
       = (g, (if pref_writable w then set_pref_file (Content m) w else w),
          true)).
Proof.
  intros Hpre. rewrite serve_forever_passes_over by done. split.
  - intros Hpath. cbn [Web.serve_forever]. unfold Web.do_GET.
    by rewrite Hpath.
  - intros r m Hpath Hr Hm. cbn [Web.serve_forever].
    rewrite (do_GET_submit json_loads argv req g w r m) by done.
    cbn [Web.shutdown_called Web.h_globals Web.h_world].
    unfold write_pref. by destruct (pref_writable w).
Qed.

Lemma X17_first_closing_request_witness :
  Web.serve_forever json0 argv0
    ([Web.mkReq "/favicon.ico" ∅] ++ req_cancel0 :: [req_submit0])
    (Web.mkGlobals None) world0
  = (Web.mkGlobals None, world0, true).
Proof.
  apply (proj1 (X17_first_closing_request_decides json0 argv0
                  [Web.mkReq "/favicon.ico" ∅] req_cancel0 [req_submit0]
                  (Web.mkGlobals None) world0
                  ltac:(vm_compute; reflexivity))).
  reflexivity.
Defined.

(** ** From one run to the next *)

(** The history file after the first Submit of a session that records. *)
Lemma gui_submit_history_file data evs rest (w : World) :
  forallb idle evs = true → history_writable w = true →
  let st := (Gui.mainloop evs (Gui.build data w)).1 in
  Gui.var_result st ≠ "" → Gui.var_result st ≠ CANCELLED →
  history_file (Gui.mainloop (evs ++ Gui.Submit :: rest)
                             (Gui.build data w)).2
  = Content (take 10
               (mkEntry (clock w) (Gui.var_result st)
                  (DialogHistory.stored_context (decision_context data))
                  (Gui.var_thinking_mode st)
                :: DialogHistory.load_history w)).
Proof.
  intros Hevs Hw st Hne Hnc.
  destruct (mainloop_ends Gui.Submit evs rest (Gui.build data w) Hevs
              eq_refl (build_running data w)) as [-> _].
  destruct (mainloop_idle evs _ Hevs (build_running data w))
    as (Hr & Hh & Hc & _).
  destruct (mainloop_env evs (Gui.build data w)) as (_ & Hhw & Hck).
  destruct (build_frame data w) as ((_ & Hhw' & Hck') & _).
  subst st. destruct (Gui.mainloop evs (Gui.build data w)) as [st1 w1].
  cbn [fst snd] in *. unfold Gui.step. rewrite Hr.
  destruct (submit_records st1 w1 Hne Hnc) as [_ ->].
  rewrite Hhw, Hhw', Hw, Hh, Hc, Hck, Hck'.
  change (Gui.ctx (Gui.build data w).1) with (decision_context data).
  change (DialogHistory.max_items (Gui.history (Gui.build data w).1))
    with 10.
  change (DialogHistory.history (Gui.history (Gui.build data w).1))
    with (DialogHistory.load_history w).
  rewrite !slice_to_nonneg by lia. by rewrite take_idemp.
Qed.

(** X18. What was submitted leads the Recent menu of the next run: after
    a Submit with a response that is neither empty nor [CANCELLED], on a
    history file that can be written, a window built next has the new
    record first in its Recent list, its menu starts with that response
    (under its label), and choosing the first item puts the response back
    in the field. *)
Theorem X18_submission_leads_next_recent data evs rest (w : World) data' :
  forallb idle evs = true → history_writable w = true →
  let st := (Gui.mainloop evs (Gui.build data w)).1 in
  let e := mkEntry (clock w) (Gui.var_result st)
             (DialogHistory.stored_context (decision_context data))
             (Gui.var_thinking_mode st) in
  let w' := (Gui.mainloop (evs ++ Gui.Submit :: rest) (Gui.build data w)).2 in
  Gui.var_result st ≠ "" → Gui.var_result st ≠ CANCELLED →
  head (Gui.recent_history (Gui.build data' w').1) = Some e
  ∧ head (GuiView.history_menu (Gui.build data' w').1)
    = Some (GuiView.menu_label e, Gui.var_result st)
  ∧ Gui.var_result (Gui.step (Gui.PickHistory 0) (Gui.build data' w')).1
    = Gui.var_result st.
Proof.
  intros Hevs Hw st e w' Hne Hnc.
  pose proof (gui_submit_history_file data evs rest w Hevs Hw Hne Hnc)
    as Hfile.
  fold st in Hfile. fold e in Hfile. fold w' in Hfile.
  assert (Hrec : Gui.recent_history (Gui.build data' w').1
                 = e :: take 4 (take 9 (DialogHistory.load_history w))).
  { change (Gui.recent_history (Gui.build data' w').1)
      with (take 5 (DialogHistory.load_history w')).
    unfold DialogHistory.load_history at 1. by rewrite Hfile. }
  split; [by rewrite Hrec |]. split.
  - unfold GuiView.history_menu. by rewrite Hrec.
  - unfold Gui.step. cbn [Gui.running Gui.build fst].
    change (Gui.recent_history _)
      with (Gui.recent_history (Gui.build data' w').1).
    by rewrite Hrec.
Qed.

Lemma X18_submission_leads_witness :
  head (Gui.recent_history
          (Gui.build request0
             (Gui.mainloop ([Gui.EditResponse "fix the bug"]
                            ++ Gui.Submit :: [])
                           (Gui.build request0 world0)).2).1)
  = Some (mkEntry "2025-06-01T12:00:00" "fix the bug"
            "Which fix should be applied?" "normal").
Proof.
  apply (X18_submission_leads_next_recent request0
           [Gui.EditResponse "fix the bug"] [] world0 request0 eq_refl
           eq_refl); discriminate.
Defined.

(** X19. The mode saved by the listener and the window opened next: after
    a [/submit] request on a preference file that can be written, a window
    built next shows the mode of the request when its text, stripped of
    surrounding white space, is one of the four modes, and [normal]
    otherwise; building that window rewrites the file to the mode shown, so
    a text the listener saved unchecked does not outlive it. *)
Theorem X19_listener_mode_then_window json_loads argv req (g : Web.globals)
    (w : World) (r m : string) data :
  pref_writable w = true →
  Py.startswith (Web.path req) "/submit" = true →
  Web.query_get0 (Web.query req) "response" "" = Py.Ret r →
  Web.query_get0 (Web.query req) "mode" "normal" = Py.Ret m →
  ∃ h, Web.do_GET json_loads argv req g w = Py.Ret h
       ∧ pref_file (Web.h_world h) = Content m
       ∧ Gui.var_thinking_mode (Gui.build data (Web.h_world h)).1
         = (if bool_decide (Py.strip m ∈ known_modes) then Py.strip m
            else "normal")
       ∧ pref_file (Gui.build data (Web.h_world h)).2
         = Content (Gui.var_thinking_mode
                      (Gui.build data (Web.h_world h)).1)
       ∧ (m ∈ ["quick"; "normal"; "deep"; "ultra"] →
          Gui.var_thinking_mode (Gui.build data (Web.h_world h)).1 = m).
Proof.
  intros Hw Hpath Hr Hm.
  eexists. split; [by apply do_GET_submit |]. cbn [Web.h_world].
  assert (Hfile : pref_file (Py.try_except (write_pref m w) w) = Content m)
    by (unfold write_pref; by rewrite Hw).
  assert (Hwr : pref_writable (Py.try_except (write_pref m w) w) = true)
    by (unfold write_pref; by rewrite Hw).
  assert (Hshow : Gui.var_thinking_mode
                    (Gui.build data (Py.try_except (write_pref m w) w)).1
                  = if bool_decide (Py.strip m ∈ known_modes)
                    then Py.strip m else "normal")
    by apply (load_content m _ Hfile).
  split; [exact Hfile |]. split; [exact Hshow |]. split.
  - unfold Gui.build. cbn [fst snd].
    by rewrite update_mode_indicator_pref, Hwr.
  - intros Hmode. apply known_modes_modes in Hmode.
    rewrite Hshow, strip_mode by done. by rewrite bool_decide_eq_true_2.
Qed.

Lemma X19_listener_mode_then_window_witness :
  ∃ h, Web.do_GET json0 argv0 req_bogus (Web.mkGlobals None) world0 = Py.Ret h
       ∧ pref_file (Web.h_world h) = Content "bogus"
       ∧ pref_file (Gui.build request0 (Web.h_world h)).2 = Content "normal".
Proof.
  destruct (X19_listener_mode_then_window json0 argv0 req_bogus
              (Web.mkGlobals None) world0 "x" "bogus" request0
              eq_refl eq_refl eq_refl eq_refl)
    as (h & Hh & Hfile & Hshow & Hsync & _).
  exists h. split; [exact Hh |]. split; [exact Hfile |].
  rewrite Hsync, Hshow. reflexivity.
Defined.

(** ** The argument *)

Lemma do_GET_any_json json_loads json_loads' argv req (g : Web.globals)
    (w : World) :
  Web.do_GET json_loads argv req g w = Web.do_GET json_loads' argv req g w
  ∨ ((∃ e, Web.do_GET json_loads argv req g w = Py.Raise e)
     ∧ (∃ e, Web.do_GET json_loads' argv req g w = Py.Raise e)).
Proof.
  unfold Web.do_GET. case_bool_decide; [| by left].
  right. split; destruct (_ (default "" (argv !! 1%nat))); eauto.
Qed.

(** X20. What a malformed argument does: the window script ends with
    status 1 before anything is read, written or printed, whatever the
    events; the listener never reads the argument when it closes a
    session, so its outcome, files and output are the same for any
    argument, well-formed or not. *)
Theorem X20_malformed_argument :
  (∀ json_loads prog arg more events (w : World),
     json_loads arg = None →
     Gui.main json_loads (prog :: arg :: more) events w = (w, Exited 1))
  ∧ (∀ json_loads json_loads' b argv reqs (w : World),
       Web.main json_loads b argv reqs w
       = Web.main json_loads' b argv reqs w).
Proof.
  split.
  - intros json_loads prog arg more events w Hjson.
    unfold Gui.main, Gui.show_dialog. by rewrite Hjson.
  - intros json_loads json_loads' b argv reqs w.
    assert (Hserve : ∀ g w0,
              Web.serve_forever json_loads argv reqs g w0
              = Web.serve_forever json_loads' argv reqs g w0).
    { induction reqs as [| req reqs IH]; intros g w0; [done |].
      cbn [Web.serve_forever].
      destruct (do_GET_any_json json_loads json_loads' argv req g w0)
        as [-> | [[e ->] [e' ->]]].
      - destruct (Web.do_GET json_loads' argv req g w0) as [h | e];
          [| apply IH].
        destruct (Web.shutdown_called h); [done | apply IH].
      - apply IH. }
    unfold Web.main, Web.show_web_dialog. by rewrite Hserve.
Qed.

Lemma X20_malformed_argument_witness :
  Gui.main (λ _, None) ("dialog.py" :: "{oops" :: [])
    [Gui.EditResponse "yes"; Gui.Submit] world0
  = (world0, Exited 1).
Proof.
  apply (proj1 X20_malformed_argument (λ _, None) "dialog.py" "{oops" []
           [Gui.EditResponse "yes"; Gui.Submit] world0).
  reflexivity.
Defined.
